(** * The xDS test client: channelz scans and convergence waiters

    A shallow embedding of
    [tools/run_tests/xds_k8s_test_driver/framework/test_app/client_app.py]
    (class [XdsTestClient]) and the properties of its channel scans, of the
    socket lookup and of the two waiters built on the retry engine.

    Python exceptions are an explicit outcome, the logger and the remote
    channelz service are an explicit world threaded through every call. *)

From Stdlib Require Import List String ZArith NArith QArith Lia Bool.
From Stdlib Require Import DecimalString.
Import ListNotations.

Local Open Scope string_scope.
Local Open Scope Z_scope.

(* ================================================================== *)
(** ** [datetime.timedelta] *)

(** A [timedelta] is a whole number of microseconds. *)
Record timedelta : Type := mk_timedelta { microseconds : Z }.

(** [_timedelta(seconds=n)] *)
Definition seconds (n : Z) : timedelta := mk_timedelta (n * 1000000).

(** [_timedelta(minutes=n)] *)
Definition minutes (n : Z) : timedelta := mk_timedelta (n * 60 * 1000000).

(** [d.total_seconds()]: the duration in seconds, here as an exact
    rational (Python rounds it to a float). *)
Definition total_seconds (d : timedelta) : Q := Qmake (microseconds d) 1000000.

(* ================================================================== *)
(** ** [framework.rpc.grpc_channelz]: the channelz messages *)

(** Modelled from the spec: the module [framework.rpc.grpc_channelz] is not
    among the sources; the connectivity states are the enumeration of the
    data model, [{IDLE, CONNECTING, READY, TRANSIENT_FAILURE, SHUTDOWN}]. *)
Inductive ChannelState : Type :=
| IDLE | CONNECTING | READY | TRANSIENT_FAILURE | SHUTDOWN.

(** [a is b] on two connectivity states. *)
Definition state_is (a b : ChannelState) : bool :=
  match a, b with
  | IDLE, IDLE | CONNECTING, CONNECTING | READY, READY
  | TRANSIENT_FAILURE, TRANSIENT_FAILURE | SHUTDOWN, SHUTDOWN => true
  | _, _ => false
  end.

(** [_ChannelzChannelState.Name(state)] *)
Definition Name (s : ChannelState) : string :=
  match s with
  | IDLE => "IDLE"
  | CONNECTING => "CONNECTING"
  | READY => "READY"
  | TRANSIENT_FAILURE => "TRANSIENT_FAILURE"
  | SHUTDOWN => "SHUTDOWN"
  end.

(** The messages of the channelz service, with the fields the client
    reads: [channel.ref.channel_id], [channel.subchannel_ref[0].name],
    [channel.data.state.state], [socket.ref.name] and the like. *)
Record ChannelRef : Type :=
  { channel_id : Z; channel_name : string }.

Record SubchannelRef : Type :=
  { subchannel_id : Z; subchannel_name : string }.

Record SocketRef : Type :=
  { socket_id : Z; socket_name : string }.

(** [channel.data]: [data.state.state], [data.target] and the call
    counters; a subchannel's [data] has the same shape. *)
Record ChannelData : Type :=
  { state : ChannelState;
    target : string;
    calls_started : Z;
    calls_failed : Z }.

Record Channel : Type :=
  { ref : ChannelRef;
    data : ChannelData;
    subchannel_ref : list SubchannelRef }.

Record Subchannel : Type :=
  { sub_ref : SubchannelRef;
    sub_data : ChannelData;
    socket_ref : list SocketRef }.

Record Socket : Type :=
  { sock_ref : SocketRef }.

(** Keyword arguments forwarded to a channelz call: [rpc_params] is either
    empty or holds [deadline_sec]. *)
Record Kwargs : Type := { deadline_sec : option Q }.

Definition no_kwargs : Kwargs := {| deadline_sec := None |}.

(* ================================================================== *)
(** ** Exceptions *)

(** The exception classes the client meets.  [ChannelNotFound] and
    [ChannelNotActive] both derive from [GrpcApp.NotFound] and from nothing
    else of this list; [RetryError] carries the exception of the last
    attempt and the notes added to it. *)
Inductive Error : Type :=
| NotFound (message : string)
| ChannelNotFound (message : string) (src dst : string)
                  (expected_state : ChannelState)
| ChannelNotActive (message : string) (src dst : string)
| RpcError (details : string)
| IndexError (message : string)
| ValueError (message : string)
| RetryError (last_attempt : Error) (notes : list string).

(** [isinstance(e, GrpcApp.NotFound)], the test of [except self.NotFound]. *)
Definition isinstance_NotFound (e : Error) : bool :=
  match e with
  | NotFound _ | ChannelNotFound _ _ _ _ | ChannelNotActive _ _ _ => true
  | _ => false
  end.

(** [isinstance(e, self.ChannelNotFound)] *)
Definition isinstance_ChannelNotFound (e : Error) : bool :=
  match e with
  | ChannelNotFound _ _ _ _ => true
  | _ => false
  end.

(** [isinstance(e, self.ChannelNotActive)] *)
Definition isinstance_ChannelNotActive (e : Error) : bool :=
  match e with
  | ChannelNotActive _ _ _ => true
  | _ => false
  end.

(** [isinstance(e, retryers.RetryError)], the test of
    [except retryers.RetryError]. *)
Definition isinstance_RetryError (e : Error) : bool :=
  match e with
  | RetryError _ _ => true
  | _ => false
  end.

(** [e.message] *)
Definition message_of (e : Error) : string :=
  match e with
  | NotFound m | ChannelNotFound m _ _ _ | ChannelNotActive m _ _
  | RpcError m | IndexError m | ValueError m => m
  | RetryError _ _ => "Retry error"
  end.

(* ================================================================== *)
(** ** Iterables *)

(** What a Python iterable gives when it is consumed: items one by one,
    then the end, or an exception raised on the way (a channelz call that
    fails while it pages through its results). *)
Inductive Iterable (A : Type) : Type :=
| Stop
| Yield (x : A) (rest : Iterable A)
| Throw (e : Error).

Arguments Stop {A}.
Arguments Yield {A} x rest.
Arguments Throw {A} e.

(** An iterable that yields the items of [l] and ends. *)
Fixpoint iter (A : Type) (l : list A) : Iterable A :=
  match l with
  | [] => Stop
  | x :: l' => Yield x (iter A l')
  end.

Arguments iter {A} l.

(* ================================================================== *)
(** ** The world: clock, remote service, log *)

Inductive Level : Type := DEBUG | INFO | WARNING.

(** The arguments of a log call, kept unformatted as the logger gets them. *)
Inductive LogArg : Type :=
| Str (s : string)
| Int (z : Z)
| ChannelRepr (c : Channel)
| SubchannelRepr (s : Subchannel)
| Repr (l : list Subchannel).

Inductive Rpc : Type :=
| FindChannelsForTarget (server_target : string)
| ListChannelSubchannels (channel : Channel)
| ListSubchannelsSockets (subchannel : Subchannel).

Inductive Event : Type :=
| Log (level : Level) (msg : string) (args : list LogArg)
| Call (rpc : Rpc) (kwargs : Kwargs)
| Sleep (duration : Z).

(** The clock counts microseconds, [rpcs] the channelz calls issued so
    far, and [trace] lists what happened, oldest first, each event with the
    time it happened at. *)
Record World : Type :=
  { clock : Z;
    rpcs : nat;
    trace : list (Z * Event) }.

(** Modelled from the spec: the channelz client
    ([framework.rpc.grpc_channelz.ChannelzServiceClient], section 4.2 of the
    spec, the Introspection Accessor) is not among the sources.  Its three
    queries are parameters.  Each takes first the number of calls issued
    before it, so that two calls may see the remote process in different
    states; [latency] is the time the call takes. *)
Record ChannelzServiceClient : Type :=
  { find_channels_for_target : nat -> string -> Kwargs -> Iterable Channel;
    list_channel_subchannels : nat -> Channel -> Kwargs -> Iterable Subchannel;
    list_subchannels_sockets : nat -> Subchannel -> Kwargs -> Iterable Socket;
    latency : nat -> N }.

(* ================================================================== *)
(** ** The monad of client code *)

Inductive Outcome (A : Type) : Type :=
| Returned (a : A)
| Raised (e : Error)
| OutOfFuel.

Arguments Returned {A} a.
Arguments Raised {A} e.
Arguments OutOfFuel {A}.

Definition M (A : Type) : Type := World -> Outcome A * World.

Definition ret {A : Type} (a : A) : M A := fun w => (Returned a, w).

Definition raise {A : Type} (e : Error) : M A := fun w => (Raised e, w).

Definition bind {A B : Type} (m : M A) (k : A -> M B) : M B :=
  fun w =>
    match m w with
    | (Returned a, w') => k a w'
    | (Raised e, w') => (Raised e, w')
    | (OutOfFuel, w') => (OutOfFuel, w')
    end.

Declare Scope client_scope.
Delimit Scope client_scope with client.
Notation "x <- m ;; k" := (bind m (fun x => k))
  (at level 100, m at next level, right associativity) : client_scope.
Notation "m ;; k" := (bind m (fun _ => k))
  (at level 100, right associativity) : client_scope.
Local Open Scope client_scope.

(** [try: body  except C as e: handler e], [catches] being the test
    [isinstance(e, C)]. *)
Definition try_except {A : Type} (body : M A) (catches : Error -> bool)
    (handler : Error -> M A) : M A :=
  fun w =>
    match body w with
    | (Raised e, w') => if catches e then handler e w' else (Raised e, w')
    | other => other
    end.

(** The world once [e] is written to the trace. *)
Definition record (e : Event) (w : World) : World :=
  {| clock := clock w; rpcs := rpcs w;
     trace := trace w ++ [(clock w, e)] |}.

Definition emit (e : Event) : M unit :=
  fun w => (Returned tt, record e w).

Definition logger_debug (msg : string) (args : list LogArg) : M unit :=
  emit (Log DEBUG msg args).

Definition logger_info (msg : string) (args : list LogArg) : M unit :=
  emit (Log INFO msg args).

Definition logger_warning (msg : string) (args : list LogArg) : M unit :=
  emit (Log WARNING msg args).

(** The world once a channelz call has been made: it is recorded in the
    trace and takes its latency. *)
Definition called (lat : nat -> N) (r : Rpc) (kwargs : Kwargs) (w : World)
    : World :=
  {| clock := clock w + Z.of_N (lat (rpcs w));
     rpcs := S (rpcs w);
     trace := trace w ++ [(clock w, Call r kwargs)] |}.

(** One channelz call; the service answers by the number of calls issued
    before this one. *)
Definition call {A : Type} (lat : nat -> N) (r : Rpc) (kwargs : Kwargs)
    (answer : nat -> Iterable A) : M (Iterable A) :=
  fun w => (Returned (answer (rpcs w)), called lat r kwargs w).

(** The world after a sleep of [d] microseconds. *)
Definition slept (d : Z) (w : World) : World :=
  {| clock := clock w + Z.max 0 d; rpcs := rpcs w;
     trace := trace w ++ [(clock w, Sleep d)] |}.

(** [time.sleep(d)] for a duration in microseconds. *)
Definition sleep (d : Z) : M unit :=
  fun w => (Returned tt, slept d w).

(** [time.monotonic()] *)
Definition now : M Z := fun w => (Returned (clock w), w).

(** What a [for] body tells its loop: go on with the next item
    ([continue], or the end of the body), or leave the function with a
    value ([return]). *)
Inductive Flow (A : Type) : Type :=
| Continue
| Return (a : A).

Arguments Continue {A}.
Arguments Return {A} a.

(** [for x in it: body x] followed by [orelse], run when the loop ends
    without a [return]; an exception of the iterable leaves the loop. *)
Fixpoint for_in {A B : Type} (it : Iterable A) (body : A -> M (Flow B))
    (orelse : M B) : M B :=
  match it with
  | Stop => orelse
  | Throw e => raise e
  | Yield x rest =>
      flow <- body x ;;
      match flow with
      | Continue => for_in rest body orelse
      | Return b => ret b
      end
  end.

(** [list(it)] *)
Fixpoint list_of {A : Type} (it : Iterable A) : M (list A) :=
  match it with
  | Stop => ret []
  | Throw e => raise e
  | Yield x rest => l <- list_of rest ;; ret (x :: l)
  end.

(** [s[0]] on a sequence. *)
Definition first_item {A : Type} (s : list A) : M A :=
  match s with
  | x :: _ => ret x
  | [] => raise (IndexError "list index out of range")
  end.

(** [x, *xs = s] *)
Definition unpack_first {A : Type} (s : list A) : M (A * list A) :=
  match s with
  | x :: xs => ret (x, xs)
  | [] =>
      raise (ValueError
               "not enough values to unpack (expected at least 1, got 0)")
  end.

(** [str(n)] for an integer. *)
Definition str (n : Z) : string := NilZero.string_of_int (Z.to_int n).

(* ================================================================== *)
(** ** [framework.helpers.retryers] *)

(** Modelled from the spec: the retry engine
    ([framework.helpers.retryers], section 4.1 of the spec) is not among the
    sources.  A retryer is built from a minimum wait, a maximum wait and an
    overall timeout.  Called on a probe, it runs the probe; a value is
    returned at once; after a failure it gives up with a [RetryError] that
    carries this last failure when the timeout has elapsed since the start,
    and otherwise sleeps and runs the probe again.  The wait doubles from
    the minimum and is capped at the maximum.  Every failure of the probe is
    retried (section 7: repeated transport failures exhaust the timeout
    too). *)
Record Retrying : Type :=
  { wait_min : timedelta;
    wait_max : timedelta;
    timeout : timedelta }.

(** Modelled from the spec: [retryers.exponential_retryer_with_timeout],
    which builds the retryer from its three settings. *)
Definition exponential_retryer_with_timeout
    (wait_min wait_max timeout : timedelta) : Retrying :=
  {| wait_min := wait_min; wait_max := wait_max; timeout := timeout |}.

(** Modelled from the spec: the wait before the attempt that follows
    attempt number [attempt] (counted from 0), in microseconds; it grows
    exponentially and is bounded above by the maximum wait. *)
Definition wait_exponential (r : Retrying) (attempt : nat) : Z :=
  Z.min (microseconds (wait_max r))
        (microseconds (wait_min r) * 2 ^ Z.of_nat attempt).

(** Modelled from the spec: the loop of the engine (probe, evaluate,
    sleep, probe again), the timeout being checked between attempts;
    [fuel] bounds the number of attempts. *)
Fixpoint retry_loop {A : Type} (fuel : nat) (r : Retrying) (start : Z)
    (attempt : nat) (probe : M A) : M A :=
  match fuel with
  | O => fun w => (OutOfFuel, w)
  | S fuel' =>
      try_except probe (fun _ => true)
        (fun e =>
           t <- now ;;
           if microseconds (timeout r) <=? t - start
           then raise (RetryError e [])
           else
             sleep (wait_exponential r attempt) ;;
             retry_loop fuel' r start (S attempt) probe)
  end.

(** Modelled from the spec: the attempts that a retryer with a positive
    minimum wait can make at most, each but the first coming after a sleep
    of the minimum wait or more. *)
Definition max_attempts (r : Retrying) : nat :=
  S (S (Z.to_nat (microseconds (timeout r) / microseconds (wait_min r)))).

(** Modelled from the spec: [retryer(probe)], the call of a retryer on a
    probe. *)
Definition retryer_call {A : Type} (r : Retrying) (probe : M A) : M A :=
  start <- now ;;
  retry_loop (max_attempts r) r start 0 probe.

(** Modelled from the spec: [retry_err.exception()], the failure of the
    last attempt that the error of an exhausted retryer carries. *)
Definition exception (retry_err : Error) : option Error :=
  match retry_err with
  | RetryError last _ => Some last
  | _ => None
  end.

(** Modelled from the spec: [retry_err.add_note(note)], which attaches a
    note to the error. *)
Definition add_note (retry_err : Error) (note : string) : Error :=
  match retry_err with
  | RetryError last notes => RetryError last (notes ++ [note])
  | e => e
  end.

(* ================================================================== *)
(** ** [XdsTestClient] *)

(** [DEFAULT_TD_XDS_URI] *)
Definition DEFAULT_TD_XDS_URI : string := "trafficdirector.googleapis.com:443".

(** The attributes set by [__init__], and the channelz client the
    [channelz] property gives. *)
Record XdsTestClient : Type :=
  { ip : string;
    rpc_port : Z;
    server_target : string;
    maintenance_port : Z;
    hostname : string;
    channelz : ChannelzServiceClient }.

(** [rpc_params]: empty, or [deadline_sec] when [rpc_deadline] is given. *)
Definition rpc_params_of (rpc_deadline : option timedelta) : Kwargs :=
  match rpc_deadline with
  | Some d => {| deadline_sec := Some (total_seconds d) |}
  | None => no_kwargs
  end.

Section Client.

Variable self : XdsTestClient.

(** [self.channelz.find_channels_for_target(server_target, **kwargs)],
    that is [get_server_channels]. *)
Definition get_server_channels (server_target : string) (kwargs : Kwargs)
    : M (Iterable Channel) :=
  call (latency (channelz self)) (FindChannelsForTarget server_target) kwargs
       (fun n => find_channels_for_target (channelz self) n server_target kwargs).

(** [self.channelz.list_channel_subchannels(channel, **kwargs)] *)
Definition channelz_list_channel_subchannels (channel : Channel)
    (kwargs : Kwargs) : M (Iterable Subchannel) :=
  call (latency (channelz self)) (ListChannelSubchannels channel) kwargs
       (fun n => list_channel_subchannels (channelz self) n channel kwargs).

(** [self.channelz.list_subchannels_sockets(subchannel)] *)
Definition channelz_list_subchannels_sockets (subchannel : Subchannel)
    (kwargs : Kwargs) : M (Iterable Socket) :=
  call (latency (channelz self)) (ListSubchannelsSockets subchannel) kwargs
       (fun n => list_subchannels_sockets (channelz self) n subchannel kwargs).

Definition find_subchannel_with_state (channel : Channel)
    (state_ : ChannelState) (kwargs : Kwargs) : M Subchannel :=
  subchannels <- channelz_list_channel_subchannels channel kwargs ;;
  for_in subchannels
    (fun subchannel =>
       if state_is (state (sub_data subchannel)) state_
       then ret (Return subchannel)
       else ret Continue)
    (raise (NotFound
              ("[" ++ hostname self ++ "] Not found "
               ++ "a " ++ Name state_ ++ " subchannel "
               ++ "for channel_id " ++ str (channel_id (ref channel))))).

Definition check_channel_successful_calls (channel : Channel)
    (kwargs : Kwargs) : M Channel :=
  if state_is (state (data channel)) READY
     && (calls_started (data channel) >? calls_failed (data channel))
  then ret channel
  else raise (NotFound
                ("[" ++ hostname self
                 ++ "] Not found successful calls over the channel.")).

Definition find_active_xds_channel (xds_server_uri : string)
    (rpc_deadline : option timedelta) : M Channel :=
  let rpc_params := rpc_params_of rpc_deadline in
  channels <- get_server_channels xds_server_uri rpc_params ;;
  for_in channels
    (fun channel =>
       logger_info "[%s] xDS control plane channel: %s"
                   [Str (hostname self); ChannelRepr channel] ;;
       try_except
         (channel <- check_channel_successful_calls channel rpc_params ;;
          logger_info "[%s] Detected successful calls to xDS control plane: %s"
                      [Str (hostname self); Str xds_server_uri] ;;
          ret (Return channel))
         isinstance_NotFound
         (fun e => ret Continue))
    (raise (ChannelNotActive
              ("[" ++ hostname self ++ "] Client has no"
               ++ " active channel with xds server " ++ xds_server_uri)
              (hostname self) xds_server_uri)).

Definition find_server_channel_with_state (expected_state : ChannelState)
    (rpc_deadline : option timedelta) (check_subchannel : bool) : M Channel :=
  let rpc_params := rpc_params_of rpc_deadline in
  let expected_state_name := Name expected_state in
  let target := server_target self in
  channels <- get_server_channels target rpc_params ;;
  for_in channels
    (fun channel =>
       let channel_state := state (data channel) in
       logger_info "[%s] Server channel: %s"
                   [Str (hostname self); ChannelRepr channel] ;;
       if state_is channel_state expected_state then
         if check_subchannel then
           try_except
             (subchannel <-
                find_subchannel_with_state channel expected_state rpc_params ;;
              logger_info "[%s] Found subchannel in state %s: %s"
                          [Str (hostname self); Str expected_state_name;
                           SubchannelRepr subchannel] ;;
              ret (Return channel))
             isinstance_NotFound
             (fun e => logger_info (message_of e) [] ;; ret Continue)
         else ret (Return channel)
       else ret Continue)
    (raise (ChannelNotFound
              ("[" ++ hostname self ++ "] Client has no"
               ++ " " ++ expected_state_name ++ " channel with server "
               ++ target)
              (hostname self) target expected_state)).

Definition get_active_server_channel_socket : M Socket :=
  channel <- find_server_channel_with_state READY None true ;;
  first_ref <- first_item (subchannel_ref channel) ;;
  logger_debug
    "[%s] Retrieving client -> server socket, channel_id: %s, subchannel: %s"
    [Str (hostname self); Int (channel_id (ref channel));
     Str (subchannel_name first_ref)] ;;
  listed <- channelz_list_channel_subchannels channel no_kwargs ;;
  listed <- list_of listed ;;
  unpacked <- unpack_first listed ;;
  let subchannel := fst unpacked in
  let subchannels := snd unpacked in
  (match subchannels with
   | [] => ret tt
   | _ => logger_warning "[%s] Unexpected subchannels: %r"
                         [Str (hostname self); Repr subchannels]
   end) ;;
  listed <- channelz_list_subchannels_sockets subchannel no_kwargs ;;
  listed <- list_of listed ;;
  unpacked <- unpack_first listed ;;
  let socket := fst unpacked in
  let sockets := snd unpacked in
  (match sockets with
   | [] => ret tt
   | _ => logger_warning "[%s] Unexpected sockets: %r"
                         [Str (hostname self); Repr subchannels]
   end) ;;
  logger_debug "[%s] Found client -> server socket: %s"
               [Str (hostname self); Str (socket_name (sock_ref socket))] ;;
  ret socket.

Definition wait_for_server_channel_state (state_ : ChannelState)
    (timeout : option timedelta) (rpc_deadline : option timedelta)
    : M Channel :=
  let rpc_deadline :=
    match rpc_deadline with None => seconds 30 | Some d => d end in
  let retryer :=
    exponential_retryer_with_timeout
      (seconds 10) (seconds 25)
      (match timeout with None => minutes 5 | Some t => t end) in
  logger_info "[%s] Waiting to report a %s channel to %s"
              [Str (hostname self); Str (Name state_);
               Str (server_target self)] ;;
  channel <-
    retryer_call retryer
      (find_server_channel_with_state state_ (Some rpc_deadline) true) ;;
  logger_info "[%s] Channel to %s transitioned to state %s: %s"
              [Str (hostname self); Str (server_target self);
               Str (Name state_); ChannelRepr channel] ;;
  ret channel.

(** [not xds_server_uri]: [None] and the empty string are falsy. *)
Definition falsy (xds_server_uri : option string) : bool :=
  match xds_server_uri with
  | None => true
  | Some s => String.eqb s EmptyString
  end.

Definition wait_for_xds_channel_active (xds_server_uri : option string)
    (timeout : option timedelta) (rpc_deadline : option timedelta)
    : M Channel :=
  let xds_server_uri :=
    if falsy xds_server_uri then DEFAULT_TD_XDS_URI
    else match xds_server_uri with Some s => s | None => DEFAULT_TD_XDS_URI end
  in
  let rpc_deadline :=
    match rpc_deadline with None => seconds 30 | Some d => d end in
  let retryer :=
    exponential_retryer_with_timeout
      (seconds 10) (seconds 25)
      (match timeout with None => minutes 5 | Some t => t end) in
  logger_info "[%s] ADS: Waiting for successful calls to xDS control plane to %s"
              [Str (hostname self); Str xds_server_uri] ;;
  channel <-
    retryer_call retryer
      (find_active_xds_channel xds_server_uri (Some rpc_deadline)) ;;
  logger_info "[%s] ADS: Detected successful calls to xDS control plane %s"
              [Str (hostname self); Str xds_server_uri] ;;
  ret channel.

(** [framework.errors.FrameworkError.note_blanket_error], which formats
    the reason of a note; the module is not among the sources. *)
Variable note_blanket_error : string -> string.

Definition wait_for_server_channel_ready (timeout : option timedelta)
    (rpc_deadline : option timedelta) : M Channel :=
  try_except
    (wait_for_server_channel_state READY timeout rpc_deadline)
    isinstance_RetryError
    (fun retry_err =>
       match exception retry_err with
       | Some last =>
           if isinstance_ChannelNotFound last
           then raise (add_note retry_err
                         (note_blanket_error
                            "The client couldn't connect to the server."))
           else raise retry_err
       | None => raise retry_err
       end).

Definition wait_for_active_xds_channel (xds_server_uri : option string)
    (timeout : option timedelta) (rpc_deadline : option timedelta)
    : M Channel :=
  try_except
    (wait_for_xds_channel_active xds_server_uri timeout rpc_deadline)
    isinstance_RetryError
    (fun retry_err =>
       match exception retry_err with
       | Some last =>
           if isinstance_ChannelNotFound last
           then raise (add_note retry_err
                         (note_blanket_error
                            "The client couldn't connect to the xDS control plane."))
           else raise retry_err
       | None => raise retry_err
       end).

End Client.

(* ================================================================== *)
(** ** [XdsTestClient]: the list of subchannels in a state *)

(** [for x in it: body] for a body that only updates the local variables
    [s] of the function: it neither returns nor leaves the loop. *)
Fixpoint for_each {A S : Type} (it : Iterable A) (body : A -> S -> M S)
    (s : S) : M S :=
  match it with
  | Stop => ret s
  | Throw e => raise e
  | Yield x rest => s' <- body x s ;; for_each rest body s'
  end.

Section ClientSubchannels.

Variable self : XdsTestClient.

(** The local list [subchannels] is the variable the two loops update;
    [subchannels.append(subchannel)] puts the subchannel at its end. *)
Definition find_subchannels_with_state (state_ : ChannelState)
    (kwargs : Kwargs) : M (list Subchannel) :=
  let subchannels := @nil Subchannel in
  channels <-
    call (latency (channelz self))
         (FindChannelsForTarget (server_target self)) kwargs
         (fun n => find_channels_for_target (channelz self) n
                     (server_target self) kwargs) ;;
  for_each channels
    (fun channel subchannels =>
       listed <- channelz_list_channel_subchannels self channel kwargs ;;
       for_each listed
         (fun subchannel subchannels =>
            if state_is (state (sub_data subchannel)) state_
            then ret (subchannels ++ [subchannel])%list
            else ret subchannels)
         subchannels)
    subchannels.

End ClientSubchannels.

(* ================================================================== *)
(** ** [XdsTestClient]: construction and the service clients *)













(* ================================================================== *)
(** * The vocabulary of the properties *)

Local Open Scope list_scope.

(** ** Runs and what they write *)

(** The events written between world [w] and a later world [w']. *)
Definition events_since (w w' : World) : list (Z * Event) :=
  skipn (List.length (trace w)) (trace w').

(** A run of [m] from [w] has outcome [o] and writes the events [evs]. *)
Definition writes {A : Type} (m : M A) (w : World) (o : Outcome A)
    (evs : list (Z * Event)) : Prop :=
  exists w', m w = (o, w') /\ trace w' = trace w ++ evs.

(** Every run of [m] ends (it does not run out of fuel), writes only events
    that satisfy [P], and does not turn the clock back. *)
Definition emits {A : Type} (P : Event -> Prop) (m : M A) : Prop :=
  forall w, exists o w' evs,
    m w = (o, w')
    /\ o <> OutOfFuel
    /\ trace w' = trace w ++ evs
    /\ Forall (fun te => P (snd te)) evs
    /\ clock w <= clock w'.

(** The channel a log record reports when it is the record [fmt] written
    with the arguments [(hostname, channel_repr(channel))]: the two channel
    scans write one such record for each channel they examine. *)
Definition reports (fmt : string) (te : Z * Event) : list Channel :=
  match snd te with
  | Log INFO msg [Str _; ChannelRepr c] => if String.eqb msg fmt then [c] else []
  | _ => []
  end.

(** The channels a scan examined, in order, read from the records [fmt] of
    its log. *)
Definition examined_channels (fmt : string) (evs : list (Z * Event))
    : list Channel :=
  flat_map (reports fmt) evs.

(** The WARNING records among [evs], in order. *)
Definition warnings (evs : list (Z * Event)) : list Event :=
  filter (fun e => match e with Log WARNING _ _ => true | _ => false end)
         (map snd evs).

(** The durations of the sleeps among [evs], in order. *)
Definition sleeps (evs : list (Z * Event)) : list Z :=
  flat_map (fun te => match snd te with Sleep d => [d] | _ => [] end) evs.

(** ** The subchannel scan *)

(** The message of the [NotFound] that [find_subchannel_with_state]
    raises. *)
Definition no_subchannel_message (self : XdsTestClient) (channel : Channel)
    (st : ChannelState) : string :=
  ("[" ++ hostname self ++ "] Not found a " ++ Name st
   ++ " subchannel for channel_id " ++ str (channel_id (ref channel)))%string.

(** ** The scan for a channel to the server *)

(** A channel qualifies when it is in the expected state and, if
    subchannels are checked, one of the subchannels [subs_of] lists for it
    is in that state too. *)
Definition qualifies (expected_state : ChannelState) (check_subchannel : bool)
    (subs_of : Channel -> list Subchannel) (channel : Channel) : Prop :=
  state (data channel) = expected_state
  /\ (check_subchannel = true ->
      Exists (fun s => state (sub_data s) = expected_state) (subs_of channel)).

Definition qualifiesb (expected_state : ChannelState) (check_subchannel : bool)
    (subs_of : Channel -> list Subchannel) (channel : Channel) : bool :=
  state_is (state (data channel)) expected_state
  && (negb check_subchannel
      || existsb (fun s => state_is (state (sub_data s)) expected_state)
                 (subs_of channel)).

(** The record [find_server_channel_with_state] writes for each channel
    it examines. *)
Definition server_channel_fmt : string := "[%s] Server channel: %s".

(** The body of the loop of [find_server_channel_with_state]. *)
Definition server_channel_body (self : XdsTestClient)
    (expected_state : ChannelState) (rpc_deadline : option timedelta)
    (check_subchannel : bool) (channel : Channel) : M (Flow Channel) :=
  logger_info "[%s] Server channel: %s"
              [Str (hostname self); ChannelRepr channel] ;;
  if state_is (state (data channel)) expected_state then
    if check_subchannel then
      try_except
        (subchannel <-
           find_subchannel_with_state self channel expected_state
                                      (rpc_params_of rpc_deadline) ;;
         logger_info "[%s] Found subchannel in state %s: %s"
                     [Str (hostname self); Str (Name expected_state);
                      SubchannelRepr subchannel] ;;
         ret (Return channel))
        isinstance_NotFound
        (fun e => logger_info (message_of e) [] ;; ret Continue)
    else ret (Return channel)
  else ret Continue.

(** The message of the [ChannelNotFound] raised after the scan. *)
Definition no_channel_message (self : XdsTestClient)
    (expected_state : ChannelState) : string :=
  ("[" ++ hostname self ++ "] Client has no " ++ Name expected_state
   ++ " channel with server " ++ server_target self)%string.

(** ** The scan for an active channel to the xDS server *)

(** A channel has successful calls when it is READY and more calls were
    started on it than failed. *)
Definition has_successful_calls (channel : Channel) : Prop :=
  state (data channel) = READY
  /\ calls_failed (data channel) < calls_started (data channel).

(** The record [find_active_xds_channel] writes for each channel it
    examines. *)
Definition xds_channel_fmt : string := "[%s] xDS control plane channel: %s".

(** The message of the [NotFound] of [check_channel_successful_calls]. *)
Definition no_successful_calls_message (self : XdsTestClient) : string :=
  ("[" ++ hostname self
   ++ "] Not found successful calls over the channel.")%string.

(** The message of the [ChannelNotActive] raised after the scan. *)
Definition no_active_channel_message (self : XdsTestClient)
    (xds_server_uri : string) : string :=
  ("[" ++ hostname self ++ "] Client has no active channel with xds server "
   ++ xds_server_uri)%string.

(** The body of the loop of [find_active_xds_channel]. *)
Definition xds_channel_body (self : XdsTestClient) (xds_server_uri : string)
    (rpc_deadline : option timedelta) (channel : Channel)
    : M (Flow Channel) :=
  logger_info "[%s] xDS control plane channel: %s"
              [Str (hostname self); ChannelRepr channel] ;;
  try_except
    (channel <- check_channel_successful_calls self channel
                  (rpc_params_of rpc_deadline) ;;
     logger_info "[%s] Detected successful calls to xDS control plane: %s"
                 [Str (hostname self); Str xds_server_uri] ;;
     ret (Return channel))
    isinstance_NotFound
    (fun e => ret Continue).

(** ** The events of the scans *)

(** The scans write INFO records and make channelz calls that carry the
    keyword arguments [kwargs], and nothing else. *)
Definition scan_event (kwargs : Kwargs) (e : Event) : Prop :=
  match e with
  | Log INFO _ _ => True
  | Call _ k => k = kwargs
  | _ => False
  end.

(** Of the channelz calls, [find_active_xds_channel] makes only the query
    of the channels of its target. *)
Definition xds_scan_event (xds_server_uri : string) (kwargs : Kwargs)
    (e : Event) : Prop :=
  match e with
  | Log INFO _ _ => True
  | Call r k => r = FindChannelsForTarget xds_server_uri /\ k = kwargs
  | _ => False
  end.

(** ** The retry engine and the waiters *)

(** What a retryer writes around the events [P] of its probe: sleeps that
    last between the minimum and the maximum wait, each begun before the
    timeout had elapsed since [start]. *)
Definition retry_event (r : Retrying) (start : Z) (P : Event -> Prop)
    (te : Z * Event) : Prop :=
  match snd te with
  | Sleep d =>
      microseconds (wait_min r) <= d <= microseconds (wait_max r)
      /\ fst te - start < microseconds (timeout r)
  | e => P e
  end.

(** The schedule of the sleeps of a retryer whose waits are 10 and 25
    seconds: 10 s, 20 s, then 25 s each time. *)
Definition backoff (attempt : nat) : Z :=
  Z.min (microseconds (seconds 25))
        (microseconds (seconds 10) * 2 ^ Z.of_nat attempt).

(** What the waiters may write when they give up after [timeout] and pass
    the deadline [rpc_deadline] to the channelz calls: sleeps of 10 to 25
    seconds, each begun before [timeout] had elapsed since [start]; calls
    whose [deadline_sec] is [rpc_deadline]; log records. *)
Definition waiter_event (start : Z) (timeout rpc_deadline : timedelta)
    (te : Z * Event) : Prop :=
  match snd te with
  | Sleep d =>
      microseconds (seconds 10) <= d <= microseconds (seconds 25)
      /\ fst te - start < microseconds timeout
  | Call _ kwargs => deadline_sec kwargs = Some (total_seconds rpc_deadline)
  | Log _ _ _ => True
  end.

(** A run of a waiter from [w]: its events are those of [waiter_event], its
    sleeps follow the schedule, it does not run out of fuel, and it raises
    only a [RetryError], and only once [timeout] has elapsed. *)
Definition waiter_run {A : Type} (w : World) (timeout rpc_deadline : timedelta)
    (run : Outcome A * World) : Prop :=
  Forall (waiter_event (clock w) timeout rpc_deadline)
         (events_since w (snd run))
  /\ (exists n, sleeps (events_since w (snd run)) = map backoff (seq 0 n))
  /\ match fst run with
     | Returned _ => True
     | Raised e =>
         (exists last, e = RetryError last [])
         /\ microseconds timeout <= clock (snd run) - clock w
     | OutOfFuel => False
     end.

(** The target [wait_for_xds_channel_active] queries. *)
Definition effective_xds_server_uri (xds_server_uri : option string) : string :=
  if falsy xds_server_uri then DEFAULT_TD_XDS_URI
  else match xds_server_uri with
       | Some s => s
       | None => DEFAULT_TD_XDS_URI
       end.

(** ** The socket of the active channel *)

(** What [get_active_server_channel_socket] does with the channel it
    found. *)
Definition socket_of_channel (self : XdsTestClient) (channel : Channel)
    : M Socket :=
  first_ref <- first_item (subchannel_ref channel) ;;
  logger_debug
    "[%s] Retrieving client -> server socket, channel_id: %s, subchannel: %s"
    [Str (hostname self); Int (channel_id (ref channel));
     Str (subchannel_name first_ref)] ;;
  listed <- channelz_list_channel_subchannels self channel no_kwargs ;;
  listed <- list_of listed ;;
  unpacked <- unpack_first listed ;;
  let subchannel := fst unpacked in
  let subchannels := snd unpacked in
  (match subchannels with
   | [] => ret tt
   | _ => logger_warning "[%s] Unexpected subchannels: %r"
                         [Str (hostname self); Repr subchannels]
   end) ;;
  listed <- channelz_list_subchannels_sockets self subchannel no_kwargs ;;
  listed <- list_of listed ;;
  unpacked <- unpack_first listed ;;
  let socket := fst unpacked in
  let sockets := snd unpacked in
  (match sockets with
   | [] => ret tt
   | _ => logger_warning "[%s] Unexpected sockets: %r"
                         [Str (hostname self); Repr subchannels]
   end) ;;
  logger_debug "[%s] Found client -> server socket: %s"
               [Str (hostname self); Str (socket_name (sock_ref socket))] ;;
  ret socket.

(** The warnings about what comes after the first subchannel and the first
    socket. *)
Definition unexpected_warnings (self : XdsTestClient)
    (subchannels : list Subchannel) (sockets : list Socket) : list Event :=
  match subchannels with
  | [] => []
  | _ => [Log WARNING "[%s] Unexpected subchannels: %r"
              [Str (hostname self); Repr subchannels]]
  end
  ++ match sockets with
     | [] => []
     | _ => [Log WARNING "[%s] Unexpected sockets: %r"
                 [Str (hostname self); Repr subchannels]]
     end.

(** ** Further vocabulary: iterables that fail, and the calls made *)

(** An iterable that yields the items of [l] and then goes on as [rest]. *)
Fixpoint iter_then {A : Type} (l : list A) (rest : Iterable A) : Iterable A :=
  match l with
  | [] => rest
  | x :: l' => Yield x (iter_then l' rest)
  end.

(** What a scan for the first item that passes [p] meets in an iterable:
    such an item, an exception thrown before any, or the end. *)
Inductive Hit (A : Type) : Type :=
| Found (x : A)
| Thrown (e : Error)
| Exhausted.

Arguments Found {A} x.
Arguments Thrown {A} e.
Arguments Exhausted {A}.

Fixpoint first_hit {A : Type} (p : A -> bool) (it : Iterable A) : Hit A :=
  match it with
  | Stop => Exhausted
  | Throw e => Thrown e
  | Yield x rest => if p x then Found x else first_hit p rest
  end.

(** The iterable throws, if it throws at all, an exception that passes
    [ok]. *)
Fixpoint throws_only {A : Type} (ok : Error -> bool) (it : Iterable A) : Prop :=
  match it with
  | Stop => True
  | Throw e => ok e = true
  | Yield _ rest => throws_only ok rest
  end.

(** The channelz calls among [evs], in order. *)
Definition calls (evs : list (Z * Event)) : list (Rpc * Kwargs) :=
  flat_map (fun te => match snd te with Call r k => [(r, k)] | _ => [] end)
           evs.

(** The subchannels in state [st] among [l]. *)
Definition in_state (st : ChannelState) (l : list Subchannel)
    : list Subchannel :=
  filter (fun s => state_is (state (sub_data s)) st) l.

(** What the scan of [find_server_channel_with_state], checking
    subchannels, makes of a channel whose listing of subchannels is
    [listing]: it returns it, passes over it, or ends with an exception. *)
Inductive Verdict : Type :=
| Passes
| Skipped
| Aborts (e : Error).

Definition verdict (expected_state : ChannelState)
    (listing : Channel -> Iterable Subchannel) (channel : Channel) : Verdict :=
  if state_is (state (data channel)) expected_state then
    match first_hit (fun s => state_is (state (sub_data s)) expected_state)
                    (listing channel) with
    | Found _ => Passes
    | Exhausted => Skipped
    | Thrown e => if isinstance_NotFound e then Skipped else Aborts e
    end
  else Skipped.

(** An event that is a log record, of any level. *)
Definition log_event (e : Event) : Prop :=
  match e with
  | Log _ _ _ => True
  | _ => False
  end.

(** An event of a function that gives its channelz calls no deadline and
    does not sleep. *)
Definition no_deadline_event (e : Event) : Prop :=
  match e with
  | Call _ kwargs => deadline_sec kwargs = None
  | Sleep _ => False
  | Log _ _ _ => True
  end.

(** [not isinstance(e, self.ChannelNotFound)] *)
Definition not_ChannelNotFound (e : Error) : bool :=
  negb (isinstance_ChannelNotFound e).

(* ================================================================== *)
(** * Example worlds *)

Definition example_channel (id : Z) (st : ChannelState)
    (started failed : Z) (refs : list SubchannelRef) : Channel :=
  {| ref := {| channel_id := id; channel_name := "channel" |};
     data := {| state := st; target := "server:443";
                calls_started := started; calls_failed := failed |};
     subchannel_ref := refs |}.

Definition example_subchannel (id : Z) (st : ChannelState)
    (refs : list SocketRef) : Subchannel :=
  {| sub_ref := {| subchannel_id := id; subchannel_name := "subchannel" |};
     sub_data := {| state := st; target := "server:443";
                    calls_started := 0; calls_failed := 0 |};
     socket_ref := refs |}.

Definition example_socket (id : Z) : Socket :=
  {| sock_ref := {| socket_id := id; socket_name := "socket" |} |}.

(** A channelz client in front of a process that does not change: the
    same channels, subchannels and sockets at every call, each call taking
    one millisecond. *)
Definition snapshot_channelz (channels : list Channel)
    (subs_of : Channel -> list Subchannel)
    (sockets_of : Subchannel -> list Socket) : ChannelzServiceClient :=
  {| find_channels_for_target := fun _ _ _ => iter channels;
     list_channel_subchannels := fun _ c _ => iter (subs_of c);
     list_subchannels_sockets := fun _ s _ => iter (sockets_of s);
     latency := fun _ => 1000%N |}.

(** A channelz client in front of a process that answers every query with
    the transport error [e]. *)
Definition failing_channelz (e : Error) : ChannelzServiceClient :=
  {| find_channels_for_target := fun _ _ _ => Throw e;
     list_channel_subchannels := fun _ _ _ => Throw e;
     list_subchannels_sockets := fun _ _ _ => Throw e;
     latency := fun _ => 1000%N |}.

Definition example_client (cz : ChannelzServiceClient) : XdsTestClient :=
  {| ip := "10.0.0.7"; rpc_port := 8079; server_target := "server:443";
     maintenance_port := 8080; hostname := "psm-client-0"; channelz := cz |}.

Definition initial_world : World := {| clock := 0; rpcs := 0; trace := [] |}.

(** A stand-in for [note_blanket_error]. *)
Definition example_note (reason : string) : string :=
  ("Reason: " ++ reason)%string.

(** The subchannels of the example channels: channel 2 has one that is
    still connecting, channel 3 an idle and a ready one, channel 4 a ready
    one. *)
Definition example_subs_of (c : Channel) : list Subchannel :=
  match channel_id (ref c) with
  | 2 => [example_subchannel 20 CONNECTING []]
  | 3 => [example_subchannel 30 IDLE []; example_subchannel 31 READY []]
  | 4 => [example_subchannel 40 READY []]
  | _ => []
  end.

Definition example_snapshot : list Channel :=
  [example_channel 1 TRANSIENT_FAILURE 0 0 [];
   example_channel 2 READY 0 0 [];
   example_channel 3 READY 4 1 [];
   example_channel 4 READY 9 0 []].

Definition example_stale_snapshot : list Channel :=
  [example_channel 1 TRANSIENT_FAILURE 0 0 [];
   example_channel 2 READY 0 0 [];
   example_channel 5 CONNECTING 0 0 []].

Definition example_xds_snapshot : list Channel :=
  [example_channel 2 READY 0 0 [];
   example_channel 6 READY 3 3 [];
   example_channel 1 READY 5 2 [];
   example_channel 7 READY 8 0 []].

(** A ready channel with two subchannel references, the subchannels and
    the sockets listed for them. *)
Definition example_ready_channel : Channel :=
  example_channel 8 READY 12 0
    [{| subchannel_id := 80; subchannel_name := "subchannel-80" |};
     {| subchannel_id := 81; subchannel_name := "subchannel-81" |}].

Definition example_ready_subs : list Subchannel :=
  [example_subchannel 80 READY []; example_subchannel 81 IDLE []].

Definition example_sockets : list Socket :=
  [example_socket 800; example_socket 801].

(** A channelz client in front of a process that changes: the channel has
    its ready subchannel at the first listing of subchannels (the second
    call issued), and none at any later listing. *)
Definition vanishing_channelz : ChannelzServiceClient :=
  {| find_channels_for_target := fun _ _ _ => iter [example_ready_channel];
     list_channel_subchannels :=
       fun n _ _ =>
         if Nat.eqb n 1 then iter [example_subchannel 80 READY []] else iter [];
     list_subchannels_sockets := fun _ _ _ => iter example_sockets;
     latency := fun _ => 1000%N |}.

(** A channelz client in front of a process that does not change, whose
    listings of subchannels may fail: [listing] gives, for each channel,
    what the listing yields and throws. *)
Definition listing_channelz (channels : Iterable Channel)
    (listing : Channel -> Iterable Subchannel) : ChannelzServiceClient :=
  {| find_channels_for_target := fun _ _ _ => channels;
     list_channel_subchannels := fun _ c _ => listing c;
     list_subchannels_sockets := fun _ _ _ => Stop;
     latency := fun _ => 1000%N |}.

(** A listing of subchannels that succeeds for channel 4 and fails for
    every other channel once it has given an idle subchannel. *)
Definition example_failing_listing (e : Error) (c : Channel)
    : Iterable Subchannel :=
  if channel_id (ref c) =? 4
  then iter [example_subchannel 40 READY []]
  else Yield (example_subchannel 30 IDLE []) (Throw e).

(* ================================================================== *)
(** * Properties *)

(** ** Worlds and traces *)

Lemma events_since_app (w w' : World) (evs : list (Z * Event)) :
  trace w' = trace w ++ evs -> events_since w w' = evs.
Proof.
  intros H. unfold events_since. rewrite H.
  rewrite skipn_app, skipn_all, Nat.sub_diag. reflexivity.
Qed.

Lemma state_is_eq (a b : ChannelState) : state_is a b = true <-> a = b.
Proof. destruct a, b; simpl; split; congruence. Qed.

Lemma state_is_neq (a b : ChannelState) : state_is a b = false <-> a <> b.
Proof. destruct a, b; simpl; split; congruence. Qed.

(** ** First match in a list *)

Lemma find_first_match {A : Type} (p : A -> bool) (pre : list A) (x : A)
    (post : list A) :
  Forall (fun y => p y = false) pre -> p x = true ->
  find p (pre ++ x :: post) = Some x.
Proof.
  induction 1 as [|y pre Hy _ IH]; intros Hx; simpl.
  - now rewrite Hx.
  - rewrite Hy. now apply IH.
Qed.

Lemma find_no_match {A : Type} (p : A -> bool) (l : list A) :
  Forall (fun y => p y = false) l -> find p l = None.
Proof.
  induction 1 as [|y l Hy _ IH]; simpl; [reflexivity|].
  now rewrite Hy.
Qed.

(** A loop whose body returns the first item that passes a test, and has
    no effect of its own. *)
Lemma for_in_find {A : Type} (p : A -> bool) (l : list A) (orelse : M A)
    (w : World) :
  for_in (iter l)
         (fun x => if p x then ret (Return x) else ret Continue) orelse w
  = match find p l with
    | Some x => (Returned x, w)
    | None => orelse w
    end.
Proof.
  induction l as [|x l IH]; simpl; [reflexivity|].
  unfold bind at 1. destruct (p x); simpl; [reflexivity|]. apply IH.
Qed.

Section ScanProperties.

Variable self : XdsTestClient.

Lemma find_subchannel_with_state_run (channel : Channel) (st : ChannelState)
    (kwargs : Kwargs) (w : World) (subs : list Subchannel) :
  list_channel_subchannels (channelz self) (rpcs w) channel kwargs = iter subs ->
  find_subchannel_with_state self channel st kwargs w
  = (match find (fun s => state_is (state (sub_data s)) st) subs with
     | Some s => Returned s
     | None => Raised (NotFound (no_subchannel_message self channel st))
     end,
     called (latency (channelz self)) (ListChannelSubchannels channel) kwargs w).
Proof.
  intros Hsubs. unfold find_subchannel_with_state, bind at 1,
    channelz_list_channel_subchannels, call.
  rewrite Hsubs, for_in_find.
  destruct (find _ subs); [reflexivity|].
  unfold raise, no_subchannel_message. repeat f_equal.
Qed.

End ScanProperties.

(** C6. [find_subchannel_with_state] scans the subchannels of the channel
    in the order the channelz client lists them and returns the first one
    whose state is the target state; when none is in that state it raises
    [NotFound]. *)
Theorem find_subchannel_with_state_first_match
    (self : XdsTestClient) (channel : Channel) (st : ChannelState)
    (kwargs : Kwargs) (w : World) (subs : list Subchannel) :
  list_channel_subchannels (channelz self) (rpcs w) channel kwargs = iter subs ->
  (forall pre s post,
      subs = pre ++ s :: post ->
      Forall (fun s' => state (sub_data s') <> st) pre ->
      state (sub_data s) = st ->
      fst (find_subchannel_with_state self channel st kwargs w) = Returned s)
  /\ (Forall (fun s' => state (sub_data s') <> st) subs ->
      fst (find_subchannel_with_state self channel st kwargs w)
      = Raised (NotFound (no_subchannel_message self channel st))).
Proof.
  intros Hsubs.
  rewrite (find_subchannel_with_state_run self channel st kwargs w subs Hsubs).
  split.
  - intros pre s post -> Hpre Hs. simpl.
    rewrite find_first_match; [reflexivity| |now apply state_is_eq].
    eapply Forall_impl; [|exact Hpre]. intros s' Hs'. now apply state_is_neq.
  - intros Hnone. simpl. rewrite find_no_match; [reflexivity|].
    eapply Forall_impl; [|exact Hnone]. intros s' Hs'. now apply state_is_neq.
Qed.

(** On the example snapshot: the second subchannel of channel 3 is the
    first ready one, and channel 2 has none. *)
Lemma find_subchannel_with_state_first_match_witness :
  fst (find_subchannel_with_state
         (example_client
            (snapshot_channelz example_snapshot example_subs_of (fun _ => [])))
         (example_channel 3 READY 4 1 []) READY no_kwargs initial_world)
  = Returned (example_subchannel 31 READY [])
  /\ fst (find_subchannel_with_state
            (example_client
               (snapshot_channelz example_snapshot example_subs_of
                                  (fun _ => [])))
            (example_channel 2 READY 0 0 []) READY no_kwargs initial_world)
     = Raised (NotFound
                 "[psm-client-0] Not found a READY subchannel for channel_id 2").
Proof.
  split.
  - apply (find_subchannel_with_state_first_match
             (example_client
                (snapshot_channelz example_snapshot example_subs_of
                                   (fun _ => [])))
             (example_channel 3 READY 4 1 []) READY no_kwargs initial_world
             [example_subchannel 30 IDLE []; example_subchannel 31 READY []]
             eq_refl)
      with (pre := [example_subchannel 30 IDLE []]) (post := []).
    + reflexivity.
    + repeat constructor. discriminate.
    + reflexivity.
  - apply (find_subchannel_with_state_first_match
             (example_client
                (snapshot_channelz example_snapshot example_subs_of
                                   (fun _ => [])))
             (example_channel 2 READY 0 0 []) READY no_kwargs initial_world
             [example_subchannel 20 CONNECTING []]
             eq_refl).
    repeat constructor. discriminate.
Defined.

(** ** Which channels a scan examined *)

Lemma examined_channels_app (fmt : string) (l1 l2 : list (Z * Event)) :
  examined_channels fmt (l1 ++ l2)
  = examined_channels fmt l1 ++ examined_channels fmt l2.
Proof. apply flat_map_app. Qed.

Lemma writes_outcome {A : Type} (m : M A) (w : World) (o : Outcome A)
    (evs : list (Z * Event)) :
  writes m w o evs -> fst (m w) = o /\ events_since w (snd (m w)) = evs.
Proof.
  intros (w' & Hrun & Htr). rewrite Hrun. simpl.
  split; [reflexivity|]. now apply events_since_app.
Qed.

(** A loop passes over the items its body skips, and reports each. *)
Lemma for_in_skip {B : Type} (fmt : string) (body : Channel -> M (Flow B))
    (skipped : Channel -> Prop) :
  (forall c w, skipped c ->
     exists evs, writes (body c) w (Returned Continue) evs
                 /\ examined_channels fmt evs = [c]) ->
  forall (pre l : list Channel) (orelse : M B) (w : World),
    Forall skipped pre ->
    exists w' evs,
      for_in (iter (pre ++ l)) body orelse w = for_in (iter l) body orelse w'
      /\ trace w' = trace w ++ evs
      /\ examined_channels fmt evs = pre.
Proof.
  intros Hbody pre l orelse w Hpre. revert w.
  induction Hpre as [|c pre Hc _ IH]; intros w.
  - exists w, []. rewrite app_nil_r. auto.
  - destruct (Hbody c w Hc) as (evs1 & (w1 & Hrun & Htr1) & Hex1).
    destruct (IH w1) as (w' & evs2 & Hloop & Htr2 & Hex2).
    exists w', (evs1 ++ evs2). repeat split.
    + simpl. unfold bind at 1. rewrite Hrun. exact Hloop.
    + rewrite Htr2, Htr1. now rewrite app_assoc.
    + rewrite examined_channels_app, Hex1, Hex2. reflexivity.
Qed.

Section ServerChannelScan.

Variable self : XdsTestClient.
Variable expected_state : ChannelState.
Variable rpc_deadline : option timedelta.
Variable check_subchannel : bool.

(** The subchannels the channelz client lists for each channel, when the
    remote process does not change during the scan. *)
Variable subs_of : Channel -> list Subchannel.

Hypothesis snapshot_subchannels :
  forall n channel kwargs,
    list_channel_subchannels (channelz self) n channel kwargs
    = iter (subs_of channel).

Lemma find_server_channel_with_state_loop (w : World) :
  find_server_channel_with_state self expected_state rpc_deadline
                                 check_subchannel w
  = for_in (find_channels_for_target (channelz self) (rpcs w)
              (server_target self) (rpc_params_of rpc_deadline))
           (server_channel_body self expected_state rpc_deadline check_subchannel)
           (raise (ChannelNotFound (no_channel_message self expected_state) (hostname self)
                     (server_target self) expected_state))
           (called (latency (channelz self))
                   (FindChannelsForTarget (server_target self))
                   (rpc_params_of rpc_deadline) w).
Proof. reflexivity. Qed.

Lemma find_in_state (subs : list Subchannel) :
  match find (fun s => state_is (state (sub_data s)) expected_state) subs with
  | Some _ => Exists (fun s => state (sub_data s) = expected_state) subs
  | None => ~ Exists (fun s => state (sub_data s) = expected_state) subs
  end.
Proof.
  destruct (find _ subs) as [s|] eqn:Hfind.
  - apply find_some in Hfind as [Hin Hs]. apply Exists_exists.
    exists s. split; [exact Hin|]. now apply state_is_eq.
  - intros Hex. apply Exists_exists in Hex as (s & Hin & Hs).
    apply (find_none _ _ Hfind) in Hin. apply state_is_eq in Hs. congruence.
Qed.

Lemma server_channel_body_skips (channel : Channel) (w : World) :
  ~ qualifies expected_state check_subchannel subs_of channel ->
  exists evs,
    writes ((server_channel_body self expected_state rpc_deadline check_subchannel) channel) w (Returned Continue) evs
    /\ examined_channels server_channel_fmt evs = [channel].
Proof.
  intros Hnot. unfold writes, server_channel_body, bind at 1, logger_info, emit.
  destruct (state_is (state (data channel)) expected_state) eqn:Hstate.
  - apply state_is_eq in Hstate. destruct check_subchannel eqn:Hcheck.
    + unfold try_except, bind at 1.
      rewrite (find_subchannel_with_state_run self channel expected_state _ _
                 (subs_of channel) (snapshot_subchannels _ _ _)).
      pose proof (find_in_state (subs_of channel)) as Hfind.
      destruct (find _ (subs_of channel)).
      * exfalso. apply Hnot. split; [exact Hstate|]. intros _. exact Hfind.
      * eexists. split; [eexists; split; [reflexivity|]|].
        -- simpl. rewrite <- !app_assoc. reflexivity.
        -- reflexivity.
    + exfalso. apply Hnot. split; [exact Hstate|]. intros Htrue. congruence.
  - eexists. split; [eexists; split; [reflexivity|]|]; reflexivity.
Qed.

Lemma server_channel_body_returns (channel : Channel) (w : World) :
  qualifies expected_state check_subchannel subs_of channel ->
  exists evs,
    writes ((server_channel_body self expected_state rpc_deadline check_subchannel) channel) w (Returned (Return channel)) evs
    /\ examined_channels server_channel_fmt evs = [channel].
Proof.
  intros [Hstate Hsub]. unfold writes, server_channel_body, bind at 1,
    logger_info, emit.
  apply state_is_eq in Hstate. rewrite Hstate.
  destruct check_subchannel.
  - unfold try_except, bind at 1.
    rewrite (find_subchannel_with_state_run self channel expected_state _ _
               (subs_of channel) (snapshot_subchannels _ _ _)).
    pose proof (find_in_state (subs_of channel)) as Hfind.
    destruct (find _ (subs_of channel)).
    + eexists. split; [eexists; split; [reflexivity|]|].
      * simpl. rewrite <- !app_assoc. reflexivity.
      * reflexivity.
    + exfalso. apply Hfind. now apply Hsub.
  - eexists. split; [eexists; split; [reflexivity|]|]; reflexivity.
Qed.

Lemma find_server_channel_with_state_found (w : World)
    (pre : list Channel) (channel : Channel) (post : list Channel) :
  find_channels_for_target (channelz self) (rpcs w) (server_target self)
                           (rpc_params_of rpc_deadline)
  = iter (pre ++ channel :: post) ->
  Forall (fun c => ~ qualifies expected_state check_subchannel subs_of c) pre ->
  qualifies expected_state check_subchannel subs_of channel ->
  exists evs,
    writes (find_server_channel_with_state self expected_state rpc_deadline
              check_subchannel) w (Returned channel) evs
    /\ examined_channels server_channel_fmt evs = pre ++ [channel].
Proof.
  intros Hsnap Hpre Hq. unfold writes.
  rewrite find_server_channel_with_state_loop, Hsnap.
  edestruct (for_in_skip server_channel_fmt (server_channel_body self expected_state rpc_deadline check_subchannel)
               (fun c => ~ qualifies expected_state check_subchannel subs_of c) server_channel_body_skips
               pre (channel :: post)) as (w1 & evs1 & Hloop & Htr1 & Hex1);
    [exact Hpre|].
  rewrite Hloop. simpl for_in. unfold bind at 1.
  destruct (server_channel_body_returns channel w1 Hq)
    as (evs2 & (w2 & Hrun & Htr2) & Hex2).
  rewrite Hrun.
  eexists. split; [eexists; split; [reflexivity|]|].
  - rewrite Htr2, Htr1. simpl. rewrite <- !app_assoc. reflexivity.
  - simpl. rewrite examined_channels_app, Hex1, Hex2. reflexivity.
Qed.

Lemma find_server_channel_with_state_not_found (w : World)
    (snapshot : list Channel) :
  find_channels_for_target (channelz self) (rpcs w) (server_target self)
                           (rpc_params_of rpc_deadline)
  = iter snapshot ->
  Forall (fun c => ~ qualifies expected_state check_subchannel subs_of c) snapshot ->
  exists evs,
    writes (find_server_channel_with_state self expected_state rpc_deadline
              check_subchannel) w
           (Raised (ChannelNotFound (no_channel_message self expected_state) (hostname self)
                      (server_target self) expected_state)) evs
    /\ examined_channels server_channel_fmt evs = snapshot.
Proof.
  intros Hsnap Hall. unfold writes.
  rewrite find_server_channel_with_state_loop, Hsnap.
  replace (iter snapshot) with (iter (snapshot ++ []))
    by now rewrite app_nil_r.
  edestruct (for_in_skip server_channel_fmt (server_channel_body self expected_state rpc_deadline check_subchannel)
               (fun c => ~ qualifies expected_state check_subchannel subs_of c) server_channel_body_skips
               snapshot []) as (w1 & evs1 & Hloop & Htr1 & Hex1);
    [exact Hall|].
  rewrite Hloop. simpl for_in. unfold raise.
  eexists. split; [eexists; split; [reflexivity|]|].
  - rewrite Htr1. simpl. rewrite <- !app_assoc. reflexivity.
  - simpl. exact Hex1.
Qed.

End ServerChannelScan.

Section XdsChannelScan.

Variable self : XdsTestClient.
Variable xds_server_uri : string.
Variable rpc_deadline : option timedelta.

Lemma check_channel_successful_calls_run (channel : Channel)
    (kwargs : Kwargs) (w : World) :
  (has_successful_calls channel
   /\ check_channel_successful_calls self channel kwargs w
      = (Returned channel, w))
  \/ (~ has_successful_calls channel
      /\ check_channel_successful_calls self channel kwargs w
         = (Raised (NotFound (no_successful_calls_message self)), w)).
Proof.
  unfold check_channel_successful_calls, has_successful_calls.
  destruct (state_is (state (data channel)) READY) eqn:Hstate; simpl.
  - apply state_is_eq in Hstate.
    destruct (Z.gtb_spec (calls_started (data channel))
                         (calls_failed (data channel))) as [Hgt|Hle].
    + left. auto.
    + right. split; [lia|reflexivity].
  - apply state_is_neq in Hstate. right. split; [tauto|reflexivity].
Qed.

Lemma find_active_xds_channel_loop (w : World) :
  find_active_xds_channel self xds_server_uri rpc_deadline w
  = for_in (find_channels_for_target (channelz self) (rpcs w)
              xds_server_uri (rpc_params_of rpc_deadline))
           (xds_channel_body self xds_server_uri rpc_deadline)
           (raise (ChannelNotActive (no_active_channel_message self xds_server_uri) (hostname self)
                     xds_server_uri))
           (called (latency (channelz self))
                   (FindChannelsForTarget xds_server_uri)
                   (rpc_params_of rpc_deadline) w).
Proof. reflexivity. Qed.

Lemma xds_channel_body_skips (channel : Channel) (w : World) :
  ~ has_successful_calls channel ->
  exists evs,
    writes ((xds_channel_body self xds_server_uri rpc_deadline) channel) w (Returned Continue) evs
    /\ examined_channels xds_channel_fmt evs = [channel].
Proof.
  intros Hnot. unfold writes, xds_channel_body, bind at 1, logger_info, emit,
    try_except, bind at 1.
  destruct (check_channel_successful_calls_run channel
              (rpc_params_of rpc_deadline)
              (record (Log INFO "[%s] xDS control plane channel: %s"
                         [Str (hostname self); ChannelRepr channel]) w))
    as [[Hyes _]|[_ Hrun]]; [contradiction|].
  rewrite Hrun.
  eexists. split; [eexists; split; [reflexivity|]|]; reflexivity.
Qed.

Lemma xds_channel_body_returns (channel : Channel) (w : World) :
  has_successful_calls channel ->
  exists evs,
    writes ((xds_channel_body self xds_server_uri rpc_deadline) channel) w (Returned (Return channel)) evs
    /\ examined_channels xds_channel_fmt evs = [channel].
Proof.
  intros Hyes. unfold writes, xds_channel_body, bind at 1, logger_info, emit,
    try_except, bind at 1.
  destruct (check_channel_successful_calls_run channel
              (rpc_params_of rpc_deadline)
              (record (Log INFO "[%s] xDS control plane channel: %s"
                         [Str (hostname self); ChannelRepr channel]) w))
    as [[_ Hrun]|[Hnot _]]; [|contradiction].
  rewrite Hrun.
  eexists. split; [eexists; split; [reflexivity|]|].
  - simpl. rewrite <- !app_assoc. reflexivity.
  - reflexivity.
Qed.

Lemma find_active_xds_channel_found (w : World)
    (pre : list Channel) (channel : Channel) (post : list Channel) :
  find_channels_for_target (channelz self) (rpcs w) xds_server_uri
                           (rpc_params_of rpc_deadline)
  = iter (pre ++ channel :: post) ->
  Forall (fun c => ~ has_successful_calls c) pre ->
  has_successful_calls channel ->
  exists evs,
    writes (find_active_xds_channel self xds_server_uri rpc_deadline) w
           (Returned channel) evs
    /\ examined_channels xds_channel_fmt evs = pre ++ [channel].
Proof.
  intros Hsnap Hpre Hq. unfold writes.
  rewrite find_active_xds_channel_loop, Hsnap.
  edestruct (for_in_skip xds_channel_fmt (xds_channel_body self xds_server_uri rpc_deadline)
               (fun c => ~ has_successful_calls c) xds_channel_body_skips
               pre (channel :: post)) as (w1 & evs1 & Hloop & Htr1 & Hex1);
    [exact Hpre|].
  rewrite Hloop. simpl for_in. unfold bind at 1.
  destruct (xds_channel_body_returns channel w1 Hq)
    as (evs2 & (w2 & Hrun & Htr2) & Hex2).
  rewrite Hrun.
  eexists. split; [eexists; split; [reflexivity|]|].
  - rewrite Htr2, Htr1. simpl. rewrite <- !app_assoc. reflexivity.
  - simpl. rewrite examined_channels_app, Hex1, Hex2. reflexivity.
Qed.

Lemma find_active_xds_channel_not_active (w : World)
    (snapshot : list Channel) :
  find_channels_for_target (channelz self) (rpcs w) xds_server_uri
                           (rpc_params_of rpc_deadline)
  = iter snapshot ->
  Forall (fun c => ~ has_successful_calls c) snapshot ->
  exists evs,
    writes (find_active_xds_channel self xds_server_uri rpc_deadline) w
           (Raised (ChannelNotActive (no_active_channel_message self xds_server_uri)
                      (hostname self) xds_server_uri)) evs
    /\ examined_channels xds_channel_fmt evs = snapshot.
Proof.
  intros Hsnap Hall. unfold writes.
  rewrite find_active_xds_channel_loop, Hsnap.
  replace (iter snapshot) with (iter (snapshot ++ []))
    by now rewrite app_nil_r.
  edestruct (for_in_skip xds_channel_fmt (xds_channel_body self xds_server_uri rpc_deadline)
               (fun c => ~ has_successful_calls c) xds_channel_body_skips
               snapshot []) as (w1 & evs1 & Hloop & Htr1 & Hex1);
    [exact Hall|].
  rewrite Hloop. simpl for_in. unfold raise.
  eexists. split; [eexists; split; [reflexivity|]|].
  - rewrite Htr1. simpl. rewrite <- !app_assoc. reflexivity.
  - simpl. exact Hex1.
Qed.

End XdsChannelScan.

(** ** The scans on a snapshot *)

Lemma qualifiesb_spec (expected_state : ChannelState) (check_subchannel : bool)
    (subs_of : Channel -> list Subchannel) (channel : Channel) :
  qualifiesb expected_state check_subchannel subs_of channel = true
  <-> qualifies expected_state check_subchannel subs_of channel.
Proof.
  unfold qualifiesb, qualifies.
  rewrite andb_true_iff, orb_true_iff, state_is_eq, negb_true_iff,
    existsb_exists, Exists_exists.
  split.
  - intros [Hstate Hsub]. split; [exact Hstate|]. intros Hcheck.
    destruct Hsub as [Hoff|(s & Hin & Hs)]; [congruence|].
    exists s. split; [exact Hin|]. now apply state_is_eq.
  - intros [Hstate Hsub]. split; [exact Hstate|].
    destruct check_subchannel; [right|now left].
    destruct (Hsub eq_refl) as (s & Hin & Hs).
    exists s. split; [exact Hin|]. now apply state_is_eq.
Qed.

Lemma not_qualifies (expected_state : ChannelState) (check_subchannel : bool)
    (subs_of : Channel -> list Subchannel) (channel : Channel) :
  qualifiesb expected_state check_subchannel subs_of channel = false ->
  ~ qualifies expected_state check_subchannel subs_of channel.
Proof. intros Hb Hq. apply qualifiesb_spec in Hq. congruence. Qed.

Lemma no_successful_calls (channel : Channel) :
  state_is (state (data channel)) READY
  && (calls_started (data channel) >? calls_failed (data channel)) = false ->
  ~ has_successful_calls channel.
Proof.
  intros Hb [Hstate Hcalls]. apply state_is_eq in Hstate.
  rewrite Hstate in Hb. simpl in Hb.
  destruct (Z.gtb_spec (calls_started (data channel))
                       (calls_failed (data channel))); [discriminate|lia].
Qed.

(** C1. On a snapshot that has a channel in the expected state (with a
    subchannel in that state when subchannels are checked),
    [find_server_channel_with_state] returns the first such channel in the
    order of the snapshot: the channels before it, among them those in the
    right state that lack a subchannel in that state, are examined and
    passed over, and no channel after it is examined. *)
Theorem find_server_channel_with_state_returns_first
    (self : XdsTestClient) (expected_state : ChannelState)
    (rpc_deadline : option timedelta) (check_subchannel : bool)
    (subs_of : Channel -> list Subchannel) (w : World)
    (pre : list Channel) (channel : Channel) (post : list Channel) :
  (forall n c kwargs,
      list_channel_subchannels (channelz self) n c kwargs = iter (subs_of c)) ->
  find_channels_for_target (channelz self) (rpcs w) (server_target self)
                           (rpc_params_of rpc_deadline)
  = iter (pre ++ channel :: post) ->
  Forall (fun c => ~ qualifies expected_state check_subchannel subs_of c) pre ->
  qualifies expected_state check_subchannel subs_of channel ->
  let run := find_server_channel_with_state self expected_state rpc_deadline
                                            check_subchannel w in
  fst run = Returned channel
  /\ examined_channels server_channel_fmt (events_since w (snd run))
     = pre ++ [channel].
Proof.
  intros Hsubs Hsnap Hpre Hq run.
  destruct (find_server_channel_with_state_found self expected_state
              rpc_deadline check_subchannel subs_of Hsubs w pre channel post
              Hsnap Hpre Hq) as (evs & Hwrites & Hexamined).
  apply writes_outcome in Hwrites as [Hfst Hevs].
  subst run. rewrite Hfst, Hevs. split; [reflexivity|exact Hexamined].
Qed.

(** On the example snapshot: channel 1 is in another state, channel 2 is
    ready without a ready subchannel, channel 3 qualifies, and channel 4 is
    not examined. *)
Lemma find_server_channel_with_state_returns_first_witness :
  let self := example_client
                (snapshot_channelz example_snapshot example_subs_of
                                   (fun _ => [])) in
  let run := find_server_channel_with_state self READY None true
                                            initial_world in
  fst run = Returned (example_channel 3 READY 4 1 [])
  /\ examined_channels server_channel_fmt (events_since initial_world (snd run))
     = [example_channel 1 TRANSIENT_FAILURE 0 0 [];
        example_channel 2 READY 0 0 [];
        example_channel 3 READY 4 1 []].
Proof.
  intros self.
  apply (find_server_channel_with_state_returns_first
           self READY None true example_subs_of initial_world
           [example_channel 1 TRANSIENT_FAILURE 0 0 [];
            example_channel 2 READY 0 0 []]
           (example_channel 3 READY 4 1 [])
           [example_channel 4 READY 9 0 []]).
  - reflexivity.
  - reflexivity.
  - repeat constructor; apply not_qualifies; reflexivity.
  - apply qualifiesb_spec. reflexivity.
Defined.

(** C3. On a snapshot in which no channel qualifies (none in the expected
    state, or none of those with the required subchannel in that state),
    [find_server_channel_with_state] raises [ChannelNotFound] with
    [src] the hostname, [dst] the server target and [expected_state] the
    requested state, and it does so having examined every channel of the
    snapshot, in order. *)
Theorem find_server_channel_with_state_raises_after_scan
    (self : XdsTestClient) (expected_state : ChannelState)
    (rpc_deadline : option timedelta) (check_subchannel : bool)
    (subs_of : Channel -> list Subchannel) (w : World)
    (snapshot : list Channel) :
  (forall n c kwargs,
      list_channel_subchannels (channelz self) n c kwargs = iter (subs_of c)) ->
  find_channels_for_target (channelz self) (rpcs w) (server_target self)
                           (rpc_params_of rpc_deadline)
  = iter snapshot ->
  Forall (fun c => ~ qualifies expected_state check_subchannel subs_of c)
         snapshot ->
  let run := find_server_channel_with_state self expected_state rpc_deadline
                                            check_subchannel w in
  fst run = Raised (ChannelNotFound (no_channel_message self expected_state)
                      (hostname self) (server_target self) expected_state)
  /\ examined_channels server_channel_fmt (events_since w (snd run))
     = snapshot.
Proof.
  intros Hsubs Hsnap Hall run.
  destruct (find_server_channel_with_state_not_found self expected_state
              rpc_deadline check_subchannel subs_of Hsubs w snapshot
              Hsnap Hall) as (evs & Hwrites & Hexamined).
  apply writes_outcome in Hwrites as [Hfst Hevs].
  subst run. rewrite Hfst, Hevs. split; [reflexivity|exact Hexamined].
Qed.

(** On a snapshot of three channels, none of which qualifies. *)
Lemma find_server_channel_with_state_raises_after_scan_witness :
  let self := example_client
                (snapshot_channelz example_stale_snapshot example_subs_of
                                   (fun _ => [])) in
  let run := find_server_channel_with_state self READY (Some (seconds 30))
                                            true initial_world in
  fst run
  = Raised (ChannelNotFound
              "[psm-client-0] Client has no READY channel with server server:443"
              "psm-client-0" "server:443" READY)
  /\ examined_channels server_channel_fmt (events_since initial_world (snd run))
     = example_stale_snapshot.
Proof.
  intros self.
  apply (find_server_channel_with_state_raises_after_scan
           self READY (Some (seconds 30)) true example_subs_of initial_world
           example_stale_snapshot).
  - reflexivity.
  - reflexivity.
  - repeat constructor; apply not_qualifies; reflexivity.
Defined.

(** C2. [find_active_xds_channel] returns the first channel of the snapshot
    that is READY with more calls started than failed; a channel with as
    many calls failed as started does not pass; and when no channel of the
    snapshot passes it raises [ChannelNotActive] with [src] the hostname
    and [dst] the xDS server URI, having examined every channel. *)
Theorem find_active_xds_channel_first_active
    (self : XdsTestClient) (xds_server_uri : string)
    (rpc_deadline : option timedelta) (w : World) (snapshot : list Channel) :
  find_channels_for_target (channelz self) (rpcs w) xds_server_uri
                           (rpc_params_of rpc_deadline)
  = iter snapshot ->
  let run := find_active_xds_channel self xds_server_uri rpc_deadline w in
  (forall pre channel post,
      snapshot = pre ++ channel :: post ->
      Forall (fun c => ~ has_successful_calls c) pre ->
      has_successful_calls channel ->
      fst run = Returned channel
      /\ examined_channels xds_channel_fmt (events_since w (snd run))
         = pre ++ [channel])
  /\ (Forall (fun c => ~ has_successful_calls c) snapshot ->
      fst run = Raised (ChannelNotActive
                          (no_active_channel_message self xds_server_uri)
                          (hostname self) xds_server_uri)
      /\ examined_channels xds_channel_fmt (events_since w (snd run))
         = snapshot)
  /\ (forall channel kwargs w0,
        calls_started (data channel) = calls_failed (data channel) ->
        ~ has_successful_calls channel
        /\ fst (check_channel_successful_calls self channel kwargs w0)
           = Raised (NotFound (no_successful_calls_message self))).
Proof.
  intros Hsnap run. split; [|split].
  - intros pre channel post Hsplit Hpre Hq. rewrite Hsplit in Hsnap.
    destruct (find_active_xds_channel_found self xds_server_uri rpc_deadline
                w pre channel post Hsnap Hpre Hq)
      as (evs & Hwrites & Hexamined).
    apply writes_outcome in Hwrites as [Hfst Hevs].
    subst run. rewrite Hfst, Hevs. split; [reflexivity|exact Hexamined].
  - intros Hall.
    destruct (find_active_xds_channel_not_active self xds_server_uri
                rpc_deadline w snapshot Hsnap Hall)
      as (evs & Hwrites & Hexamined).
    apply writes_outcome in Hwrites as [Hfst Hevs].
    subst run. rewrite Hfst, Hevs. split; [reflexivity|exact Hexamined].
  - intros channel kwargs w0 Hequal.
    assert (Hnot : ~ has_successful_calls channel)
      by (intros [_ Hlt]; lia).
    split; [exact Hnot|].
    destruct (check_channel_successful_calls_run self channel kwargs w0)
      as [[Hyes _]|[_ Hrun]]; [contradiction|]. now rewrite Hrun.
Qed.

(** On a snapshot whose first two channels are ready with as many calls
    failed as started (none, and three of three). *)
Lemma find_active_xds_channel_first_active_witness :
  let self := example_client
                (snapshot_channelz example_xds_snapshot (fun _ => [])
                                   (fun _ => [])) in
  let run := find_active_xds_channel self "server:443" None initial_world in
  fst run = Returned (example_channel 1 READY 5 2 [])
  /\ examined_channels xds_channel_fmt (events_since initial_world (snd run))
     = [example_channel 2 READY 0 0 [];
        example_channel 6 READY 3 3 [];
        example_channel 1 READY 5 2 []].
Proof.
  intros self.
  apply (find_active_xds_channel_first_active
           self "server:443" None initial_world example_xds_snapshot
           eq_refl)
    with (pre := [example_channel 2 READY 0 0 [];
                  example_channel 6 READY 3 3 []])
         (post := [example_channel 7 READY 8 0 []]).
  - reflexivity.
  - repeat constructor; apply no_successful_calls; reflexivity.
  - split; reflexivity.
Defined.

(** ** What a computation may write *)

Lemma emits_ret {A : Type} (P : Event -> Prop) (a : A) : emits P (ret a).
Proof.
  intros w. exists (Returned a), w, []. unfold ret.
  rewrite app_nil_r. repeat split; [discriminate|constructor|lia].
Qed.

Lemma emits_raise {A : Type} (P : Event -> Prop) (e : Error) :
  emits P (@raise A e).
Proof.
  intros w. exists (Raised e), w, []. unfold raise.
  rewrite app_nil_r. repeat split; [discriminate|constructor|lia].
Qed.

Lemma emits_bind {A B : Type} (P : Event -> Prop) (m : M A) (k : A -> M B) :
  emits P m -> (forall a, emits P (k a)) -> emits P (bind m k).
Proof.
  intros Hm Hk w. unfold bind.
  destruct (Hm w) as (o & w1 & evs1 & Hrun & Ho & Htr1 & Hevs1 & Hclock1).
  rewrite Hrun. destruct o as [a|e|].
  - destruct (Hk a w1) as (o2 & w2 & evs2 & Hrun2 & Ho2 & Htr2 & Hevs2 & Hclock2).
    exists o2, w2, (evs1 ++ evs2). repeat split.
    + exact Hrun2.
    + exact Ho2.
    + rewrite Htr2, Htr1. now rewrite app_assoc.
    + apply Forall_app. now split.
    + lia.
  - exists (Raised e), w1, evs1. repeat split; try assumption. discriminate.
  - contradiction.
Qed.

Lemma emits_try_except {A : Type} (P : Event -> Prop) (body : M A)
    (catches : Error -> bool) (handler : Error -> M A) :
  emits P body -> (forall e, emits P (handler e)) ->
  emits P (try_except body catches handler).
Proof.
  intros Hbody Hhandler w. unfold try_except.
  destruct (Hbody w) as (o & w1 & evs1 & Hrun & Ho & Htr1 & Hevs1 & Hclock1).
  rewrite Hrun. destruct o as [a|e|].
  - exists (Returned a), w1, evs1. repeat split; try assumption.
  - destruct (catches e).
    + destruct (Hhandler e w1)
        as (o2 & w2 & evs2 & Hrun2 & Ho2 & Htr2 & Hevs2 & Hclock2).
      exists o2, w2, (evs1 ++ evs2). repeat split.
      * exact Hrun2.
      * exact Ho2.
      * rewrite Htr2, Htr1. now rewrite app_assoc.
      * apply Forall_app. now split.
      * lia.
    + exists (Raised e), w1, evs1. repeat split; try assumption.
  - contradiction.
Qed.

Lemma emits_emit (P : Event -> Prop) (e : Event) : P e -> emits P (emit e).
Proof.
  intros He w. exists (Returned tt), (record e w), [(clock w, e)].
  unfold emit. repeat split.
  - discriminate.
  - constructor; [exact He|constructor].
  - simpl. lia.
Qed.

Lemma emits_call {A : Type} (P : Event -> Prop) (lat : nat -> N) (r : Rpc)
    (kwargs : Kwargs) (answer : nat -> Iterable A) :
  P (Call r kwargs) -> emits P (call lat r kwargs answer).
Proof.
  intros He w.
  exists (Returned (answer (rpcs w))), (called lat r kwargs w),
    [(clock w, Call r kwargs)].
  unfold call. repeat split.
  - discriminate.
  - constructor; [exact He|constructor].
  - simpl. lia.
Qed.

Lemma emits_for_in {A B : Type} (P : Event -> Prop) (it : Iterable A)
    (body : A -> M (Flow B)) (orelse : M B) :
  (forall x, emits P (body x)) -> emits P orelse ->
  emits P (for_in it body orelse).
Proof.
  intros Hbody Horelse.
  induction it as [|x rest IH|e]; simpl.
  - exact Horelse.
  - apply emits_bind; [apply Hbody|].
    intros [|b]; [exact IH|apply emits_ret].
  - apply emits_raise.
Qed.

Lemma emits_logger_info (P : Event -> Prop) (msg : string)
    (args : list LogArg) :
  P (Log INFO msg args) -> emits P (logger_info msg args).
Proof. apply emits_emit. Qed.

Lemma find_subchannel_with_state_emits (self : XdsTestClient)
    (channel : Channel) (st : ChannelState) (kwargs : Kwargs) :
  emits (scan_event kwargs)
        (find_subchannel_with_state self channel st kwargs).
Proof.
  unfold find_subchannel_with_state.
  apply emits_bind; [apply emits_call; reflexivity|].
  intros subchannels. apply emits_for_in; [|apply emits_raise].
  intros s. destruct (state_is _ _); apply emits_ret.
Qed.

Lemma check_channel_successful_calls_emits (P : Event -> Prop)
    (self : XdsTestClient) (channel : Channel) (kwargs : Kwargs) :
  emits P (check_channel_successful_calls self channel kwargs).
Proof.
  unfold check_channel_successful_calls.
  destruct (_ && _); [apply emits_ret|apply emits_raise].
Qed.

Lemma find_server_channel_with_state_emits (self : XdsTestClient)
    (expected_state : ChannelState) (rpc_deadline : option timedelta)
    (check_subchannel : bool) :
  emits (scan_event (rpc_params_of rpc_deadline))
        (find_server_channel_with_state self expected_state rpc_deadline
                                        check_subchannel).
Proof.
  unfold find_server_channel_with_state.
  apply emits_bind; [apply emits_call; reflexivity|].
  intros channels. apply emits_for_in; [|apply emits_raise].
  intros channel. apply emits_bind; [apply emits_logger_info; exact I|].
  intros _. destruct (state_is _ _); [|apply emits_ret].
  destruct check_subchannel; [|apply emits_ret].
  apply emits_try_except.
  - apply emits_bind; [apply find_subchannel_with_state_emits|].
    intros subchannel.
    apply emits_bind; [apply emits_logger_info; exact I|].
    intros _. apply emits_ret.
  - intros e. apply emits_bind; [apply emits_logger_info; exact I|].
    intros _. apply emits_ret.
Qed.

Lemma find_active_xds_channel_emits (self : XdsTestClient)
    (xds_server_uri : string) (rpc_deadline : option timedelta) :
  emits (xds_scan_event xds_server_uri (rpc_params_of rpc_deadline))
        (find_active_xds_channel self xds_server_uri rpc_deadline).
Proof.
  unfold find_active_xds_channel.
  apply emits_bind; [apply emits_call; split; reflexivity|].
  intros channels. apply emits_for_in; [|apply emits_raise].
  intros channel. apply emits_bind; [apply emits_logger_info; exact I|].
  intros _. apply emits_try_except.
  - apply emits_bind; [apply check_channel_successful_calls_emits|].
    intros c. apply emits_bind; [apply emits_logger_info; exact I|].
    intros _. apply emits_ret.
  - intros e. apply emits_ret.
Qed.

(** ** The retry engine *)

Lemma sleeps_app (l1 l2 : list (Z * Event)) :
  sleeps (l1 ++ l2) = sleeps l1 ++ sleeps l2.
Proof. apply flat_map_app. Qed.

Lemma sleeps_none (P : Event -> Prop) (evs : list (Z * Event)) :
  (forall d, ~ P (Sleep d)) -> Forall (fun te => P (snd te)) evs ->
  sleeps evs = [].
Proof.
  intros HP. induction 1 as [|[t e] evs He _ IH]; [reflexivity|].
  unfold sleeps in *. simpl in *. rewrite IH.
  destruct e; try reflexivity. now apply HP in He.
Qed.

Lemma retry_event_probe (r : Retrying) (start : Z) (P : Event -> Prop)
    (evs : list (Z * Event)) :
  (forall d, ~ P (Sleep d)) -> Forall (fun te => P (snd te)) evs ->
  Forall (retry_event r start P) evs.
Proof.
  intros HP Hevs. eapply Forall_impl; [|exact Hevs].
  intros [t e] He. unfold retry_event. simpl in *.
  destruct e; try exact He. now apply HP in He.
Qed.

Lemma wait_exponential_bounds (r : Retrying) (attempt : nat) :
  0 < microseconds (wait_min r) <= microseconds (wait_max r) ->
  microseconds (wait_min r) <= wait_exponential r attempt
                            <= microseconds (wait_max r).
Proof.
  intros [Hpos Hle]. unfold wait_exponential.
  assert (1 <= 2 ^ Z.of_nat attempt) by (apply Z.pow_le_mono_r with (b := 0); lia).
  split; [apply Z.min_glb; nia|apply Z.le_min_l].
Qed.

Section RetryLoop.

Context {A : Type}.
Variable P : Event -> Prop.
Variable r : Retrying.
Variable start : Z.
Variable probe : M A.

Hypothesis probe_never_sleeps : forall d, ~ P (Sleep d).
Hypothesis probe_emits : emits P probe.
Hypothesis waits_ordered :
  0 < microseconds (wait_min r) <= microseconds (wait_max r).

Lemma retry_loop_run (fuel : nat) :
  forall (attempt : nat) (w : World),
    (1 <= fuel)%nat ->
    microseconds (timeout r) - (clock w - start)
    <= (Z.of_nat fuel - 1) * microseconds (wait_min r) ->
    exists o w' evs n,
      retry_loop fuel r start attempt probe w = (o, w')
      /\ o <> OutOfFuel
      /\ trace w' = trace w ++ evs
      /\ Forall (retry_event r start P) evs
      /\ sleeps evs = map (wait_exponential r) (seq attempt n)
      /\ clock w <= clock w'
      /\ match o with
         | Raised e =>
             exists last, e = RetryError last []
                          /\ microseconds (timeout r) <= clock w' - start
         | _ => True
         end.
Proof.
  induction fuel as [|fuel IH]; intros attempt w Hfuel Hbudget; [lia|].
  cbn [retry_loop]. unfold try_except.
  destruct (probe_emits w) as (o & w1 & evs1 & Hrun & Ho & Htr1 & Hevs1 & Hclock1).
  rewrite Hrun.
  pose proof (retry_event_probe r start P evs1 probe_never_sleeps Hevs1)
    as Hretry1.
  pose proof (sleeps_none P evs1 probe_never_sleeps Hevs1) as Hsleeps1.
  destruct o as [a|e|]; [| |contradiction].
  - exists (Returned a), w1, evs1, 0%nat. repeat split; assumption.
  - unfold bind at 1, now.
    destruct (Z.leb_spec (microseconds (timeout r)) (clock w1 - start))
      as [Hover|Hleft].
    + exists (Raised (RetryError e [])), w1, evs1, 0%nat. unfold raise.
      repeat split; try assumption; try discriminate.
      exists e. split; [reflexivity|exact Hover].
    + unfold bind at 1, sleep.
      pose proof (wait_exponential_bounds r attempt waits_ordered) as Hwait.
      set (d := wait_exponential r attempt) in *.
      destruct (IH (S attempt) (slept d w1))
        as (o2 & w2 & evs2 & n & Hrun2 & Ho2 & Htr2 & Hevs2 & Hsleeps2
            & Hclock2 & Hraised).
      * rewrite Nat2Z.inj_succ in Hbudget.
        destruct fuel as [|fuel']; [simpl in Hbudget; lia|lia].
      * rewrite Nat2Z.inj_succ in Hbudget. simpl clock. lia.
      * exists o2, w2, (evs1 ++ (clock w1, Sleep d) :: evs2), (S n).
        simpl clock in Hclock2. repeat split.
        -- exact Hrun2.
        -- exact Ho2.
        -- rewrite Htr2. simpl. rewrite Htr1, <- !app_assoc. reflexivity.
        -- apply Forall_app. split; [exact Hretry1|].
           constructor; [|exact Hevs2]. unfold retry_event. simpl. lia.
        -- rewrite sleeps_app, Hsleeps1. simpl.
           unfold sleeps in *. rewrite Hsleeps2. reflexivity.
        -- lia.
        -- exact Hraised.
Qed.

Lemma max_attempts_enough :
  microseconds (timeout r)
  <= (Z.of_nat (max_attempts r) - 1) * microseconds (wait_min r).
Proof.
  unfold max_attempts.
  set (t := microseconds (timeout r)). set (m := microseconds (wait_min r)).
  assert (Hm : 0 < m) by (subst m; lia).
  destruct (Z.le_gt_cases 0 t) as [Hpos|Hneg].
  - pose proof (Z.div_pos t m Hpos Hm).
    pose proof (Z.mod_pos_bound t m Hm).
    pose proof (Z.div_mod t m ltac:(lia)).
    rewrite !Nat2Z.inj_succ, Z2Nat.id by assumption. nia.
  - assert (t / m < 0) by (apply Z.div_lt_upper_bound; lia).
    assert (Hzero : Z.to_nat (t / m) = 0%nat) by lia.
    rewrite Hzero. change (Z.of_nat 2) with 2. lia.
Qed.

End RetryLoop.

(** A call of a retryer whose minimum wait is positive and at most its
    maximum wait, on a probe that does not sleep. *)
Lemma retryer_call_run {A : Type} (P : Event -> Prop) (r : Retrying)
    (probe : M A) (w : World) :
  (forall d, ~ P (Sleep d)) -> emits P probe ->
  0 < microseconds (wait_min r) <= microseconds (wait_max r) ->
  exists o w' evs n,
    retryer_call r probe w = (o, w')
    /\ o <> OutOfFuel
    /\ trace w' = trace w ++ evs
    /\ Forall (retry_event r (clock w) P) evs
    /\ sleeps evs = map (wait_exponential r) (seq 0 n)
    /\ clock w <= clock w'
    /\ match o with
       | Raised e =>
           exists last, e = RetryError last []
                        /\ microseconds (timeout r) <= clock w' - clock w
       | _ => True
       end.
Proof.
  intros HP Hprobe Hwaits. unfold retryer_call, bind, now.
  apply (retry_loop_run P r (clock w) probe HP Hprobe Hwaits).
  - unfold max_attempts. lia.
  - pose proof (max_attempts_enough r Hwaits). lia.
Qed.

(** ** The waiters *)

(** The shape of both waiters: a log record, the retryer called on the
    probe, a log record about the value found. *)
Lemma logged_retry_run {A : Type} (P : Event -> Prop) (r : Retrying)
    (probe : M A) (before : Event) (after : A -> Event) (w : World) :
  (forall d, ~ P (Sleep d)) -> emits P probe ->
  0 < microseconds (wait_min r) <= microseconds (wait_max r) ->
  P before -> (forall a, P (after a)) ->
  exists o w' evs n,
    (emit before ;; a <- retryer_call r probe ;; emit (after a) ;; ret a) w
    = (o, w')
    /\ o <> OutOfFuel
    /\ trace w' = trace w ++ evs
    /\ Forall (retry_event r (clock w) P) evs
    /\ sleeps evs = map (wait_exponential r) (seq 0 n)
    /\ match o with
       | Raised e =>
           exists last, e = RetryError last []
                        /\ microseconds (timeout r) <= clock w' - clock w
       | _ => True
       end.
Proof.
  intros HP Hprobe Hwaits Hbefore Hafter.
  unfold bind at 1, emit at 1.
  destruct (retryer_call_run P r probe (record before w) HP Hprobe Hwaits)
    as (o & w1 & evs & n & Hrun & Ho & Htr & Hevs & Hsleeps & Hclock & Hraised).
  assert (Hlogged : retry_event r (clock w) P (clock w, before)).
  { unfold retry_event. simpl. destruct before; try exact Hbefore.
    now apply HP in Hbefore. }
  assert (Hnosleep : forall e, P e -> sleeps [(clock w1, e)] = []).
  { intros e He. unfold sleeps. simpl. destruct e; try reflexivity.
    now apply HP in He. }
  unfold bind at 1. rewrite Hrun. destruct o as [a|e|]; [| |contradiction].
  - exists (Returned a), (record (after a) w1),
      ((clock w, before) :: evs ++ [(clock w1, after a)]), n.
    unfold bind, emit, ret. repeat split.
    + discriminate.
    + simpl. rewrite Htr. simpl. rewrite <- !app_assoc. reflexivity.
    + constructor; [exact Hlogged|]. apply Forall_app. split; [exact Hevs|].
      constructor; [|constructor]. unfold retry_event. simpl.
      specialize (Hafter a). destruct (after a); try exact Hafter.
      now apply HP in Hafter.
    + change ((clock w, before) :: evs ++ [(clock w1, after a)])
        with ([(clock w, before)] ++ evs ++ [(clock w1, after a)]).
      rewrite !sleeps_app, Hsleeps.
      rewrite (Hnosleep (after a) (Hafter a)), app_nil_r.
      unfold sleeps at 1. simpl. destruct before; try reflexivity.
      now apply HP in Hbefore.
  - exists (Raised e), w1, ((clock w, before) :: evs), n. repeat split.
    + discriminate.
    + rewrite Htr. simpl. rewrite <- !app_assoc. reflexivity.
    + constructor; assumption.
    + change ((clock w, before) :: evs) with ([(clock w, before)] ++ evs).
      rewrite sleeps_app, Hsleeps.
      unfold sleeps at 1. simpl. destruct before; try reflexivity.
      now apply HP in Hbefore.
    + exact Hraised.
Qed.

Lemma scan_event_never_sleeps (kwargs : Kwargs) (d : Z) :
  ~ scan_event kwargs (Sleep d).
Proof. intros []. Qed.

Lemma xds_scan_event_never_sleeps (uri : string) (kwargs : Kwargs) (d : Z) :
  ~ xds_scan_event uri kwargs (Sleep d).
Proof. intros []. Qed.

Lemma xds_scan_event_scan (uri : string) (kwargs : Kwargs) (e : Event) :
  xds_scan_event uri kwargs e -> scan_event kwargs e.
Proof. destruct e as [[]| |]; simpl; tauto. Qed.

(** From the events of a retryer with waits 10 s and 25 s around a scan to
    the events of a waiter. *)
Lemma waiter_run_intro {A : Type} (w : World) (timeout rpc_deadline : timedelta)
    (m : M A) :
  (exists o w' evs n,
      m w = (o, w')
      /\ o <> OutOfFuel
      /\ trace w' = trace w ++ evs
      /\ Forall (retry_event
                   (exponential_retryer_with_timeout (seconds 10) (seconds 25)
                                                     timeout)
                   (clock w)
                   (scan_event (rpc_params_of (Some rpc_deadline)))) evs
      /\ sleeps evs
         = map (wait_exponential
                  (exponential_retryer_with_timeout (seconds 10) (seconds 25)
                                                    timeout))
               (seq 0 n)
      /\ match o with
         | Raised e =>
             exists last, e = RetryError last []
                          /\ microseconds timeout <= clock w' - clock w
         | _ => True
         end) ->
  waiter_run w timeout rpc_deadline (m w).
Proof.
  intros (o & w' & evs & n & Hrun & Ho & Htr & Hevs & Hsleeps & Hraised).
  unfold waiter_run. rewrite Hrun. simpl.
  rewrite (events_since_app _ _ _ Htr). split; [|split].
  - eapply Forall_impl; [|exact Hevs].
    intros [t e]. unfold retry_event, waiter_event. simpl.
    destruct e as [level msg args|rpc kwargs|d]; [tauto| |tauto].
    intros ->. reflexivity.
  - exists n. exact Hsleeps.
  - destruct o as [a|e|]; [exact I| |contradiction].
    destruct Hraised as (last & -> & Hover). split; [now exists last|exact Hover].
Qed.

Lemma wait_for_server_channel_state_run (self : XdsTestClient)
    (st : ChannelState) (timeout rpc_deadline : option timedelta) (w : World) :
  waiter_run w
    (match timeout with None => minutes 5 | Some t => t end)
    (match rpc_deadline with None => seconds 30 | Some d => d end)
    (wait_for_server_channel_state self st timeout rpc_deadline w).
Proof.
  apply waiter_run_intro.
  apply (logged_retry_run
           (scan_event
              (rpc_params_of
                 (Some match rpc_deadline with None => seconds 30 | Some d => d end)))
           (exponential_retryer_with_timeout
              (seconds 10) (seconds 25)
              match timeout with None => minutes 5 | Some t => t end)
           (find_server_channel_with_state self st
              (Some match rpc_deadline with None => seconds 30 | Some d => d end)
              true)
           (Log INFO "[%s] Waiting to report a %s channel to %s"
                [Str (hostname self); Str (Name st); Str (server_target self)])
           (fun channel =>
              Log INFO "[%s] Channel to %s transitioned to state %s: %s"
                  [Str (hostname self); Str (server_target self);
                   Str (Name st); ChannelRepr channel])).
  - apply scan_event_never_sleeps.
  - apply find_server_channel_with_state_emits.
  - simpl. lia.
  - exact I.
  - intros channel. exact I.
Qed.

Lemma wait_for_xds_channel_active_events (self : XdsTestClient)
    (xds_server_uri : option string) (timeout rpc_deadline : option timedelta)
    (w : World) :
  exists o w' evs n,
    wait_for_xds_channel_active self xds_server_uri timeout rpc_deadline w
    = (o, w')
    /\ o <> OutOfFuel
    /\ trace w' = trace w ++ evs
    /\ Forall (retry_event
                 (exponential_retryer_with_timeout
                    (seconds 10) (seconds 25)
                    match timeout with None => minutes 5 | Some t => t end)
                 (clock w)
                 (xds_scan_event
                    (effective_xds_server_uri xds_server_uri)
                    (rpc_params_of
                       (Some match rpc_deadline with
                             | None => seconds 30
                             | Some d => d
                             end)))) evs
    /\ sleeps evs
       = map (wait_exponential
                (exponential_retryer_with_timeout
                   (seconds 10) (seconds 25)
                   match timeout with None => minutes 5 | Some t => t end))
             (seq 0 n)
    /\ match o with
       | Raised e =>
           exists last,
             e = RetryError last []
             /\ microseconds
                  match timeout with None => minutes 5 | Some t => t end
                <= clock w' - clock w
       | _ => True
       end.
Proof.
  apply (logged_retry_run
           (xds_scan_event
              (effective_xds_server_uri xds_server_uri)
              (rpc_params_of
                 (Some match rpc_deadline with None => seconds 30 | Some d => d end)))
           (exponential_retryer_with_timeout
              (seconds 10) (seconds 25)
              match timeout with None => minutes 5 | Some t => t end)
           (find_active_xds_channel self
              (effective_xds_server_uri xds_server_uri)
              (Some match rpc_deadline with None => seconds 30 | Some d => d end))
           (Log INFO
                "[%s] ADS: Waiting for successful calls to xDS control plane to %s"
                [Str (hostname self);
                 Str (effective_xds_server_uri xds_server_uri)])
           (fun _ =>
              Log INFO
                  "[%s] ADS: Detected successful calls to xDS control plane %s"
                  [Str (hostname self);
                   Str (effective_xds_server_uri xds_server_uri)])).
  - apply xds_scan_event_never_sleeps.
  - apply find_active_xds_channel_emits.
  - simpl. lia.
  - exact I.
  - intros channel. exact I.
Qed.

Lemma wait_for_xds_channel_active_run (self : XdsTestClient)
    (xds_server_uri : option string) (timeout rpc_deadline : option timedelta)
    (w : World) :
  waiter_run w
    (match timeout with None => minutes 5 | Some t => t end)
    (match rpc_deadline with None => seconds 30 | Some d => d end)
    (wait_for_xds_channel_active self xds_server_uri timeout rpc_deadline w).
Proof.
  apply waiter_run_intro.
  destruct (wait_for_xds_channel_active_events self xds_server_uri timeout
              rpc_deadline w)
    as (o & w' & evs & n & Hrun & Ho & Htr & Hevs & Hsleeps & Hraised).
  exists o, w', evs, n. repeat split; try assumption.
  eapply Forall_impl; [|exact Hevs].
  intros [t e]. unfold retry_event. simpl.
  destruct e; try tauto; apply xds_scan_event_scan.
Qed.

Lemma total_seconds_seconds (n : Z) :
  Qeq (total_seconds (seconds n)) (inject_Z n).
Proof. unfold total_seconds, seconds, Qeq. simpl. lia. Qed.





(** ** The wrappers that add a note *)

Lemma waiter_raises_retry_error {A : Type} (w : World)
    (timeout rpc_deadline : timedelta) (run : Outcome A * World) (e : Error) :
  waiter_run w timeout rpc_deadline run -> fst run = Raised e ->
  exists last, e = RetryError last [].
Proof.
  intros (_ & _ & Hraised) Hfst. rewrite Hfst in Hraised. tauto.
Qed.

(** C5. When [wait_for_server_channel_state] gives up, what
    [wait_for_server_channel_ready] raises is the same [RetryError]: with
    the note made from "The client couldn't connect to the server." added
    when the last attempt failed with [ChannelNotFound], and unchanged, with
    no note, when it failed with anything else. *)
Theorem wait_for_server_channel_ready_note
    (self : XdsTestClient) (note_blanket_error : string -> string)
    (timeout rpc_deadline : option timedelta) (w w' : World) (e : Error) :
  wait_for_server_channel_state self READY timeout rpc_deadline w
  = (Raised e, w') ->
  exists last,
    e = RetryError last []
    /\ (isinstance_ChannelNotFound last = true ->
        wait_for_server_channel_ready self note_blanket_error timeout
                                      rpc_deadline w
        = (Raised (RetryError last
                     [note_blanket_error
                        "The client couldn't connect to the server."]),
           w'))
    /\ (isinstance_ChannelNotFound last = false ->
        wait_for_server_channel_ready self note_blanket_error timeout
                                      rpc_deadline w
        = (Raised e, w')).
Proof.
  intros Hrun.
  destruct (waiter_raises_retry_error w _ _ _ e
              (wait_for_server_channel_state_run self READY timeout
                 rpc_deadline w)) as (last & ->).
  { now rewrite Hrun. }
  exists last. split; [reflexivity|].
  unfold wait_for_server_channel_ready, try_except. rewrite Hrun. simpl.
  split; intros ->; reflexivity.
Qed.

(** With no qualifying channel at any attempt the note is added; with a
    transport error at every attempt it is not. *)
Lemma wait_for_server_channel_ready_note_witness :
  let note := example_note in
  fst (wait_for_server_channel_ready
         (example_client
            (snapshot_channelz example_stale_snapshot example_subs_of
                               (fun _ => [])))
         note (Some (seconds 30)) None initial_world)
  = Raised (RetryError
              (ChannelNotFound
                 "[psm-client-0] Client has no READY channel with server server:443"
                 "psm-client-0" "server:443" READY)
              ["Reason: The client couldn't connect to the server."])
  /\ fst (wait_for_server_channel_ready
            (example_client (failing_channelz (RpcError "UNAVAILABLE")))
            note (Some (seconds 30)) None initial_world)
     = Raised (RetryError (RpcError "UNAVAILABLE") []).
Proof.
  intros note. split.
  - destruct (wait_for_server_channel_ready_note
                (example_client
                   (snapshot_channelz example_stale_snapshot example_subs_of
                                      (fun _ => [])))
                note (Some (seconds 30)) None initial_world _ _
                ltac:(vm_compute; reflexivity))
      as (last & Hlast & Hnote & _).
    injection Hlast as <-. rewrite Hnote; reflexivity.
  - destruct (wait_for_server_channel_ready_note
                (example_client (failing_channelz (RpcError "UNAVAILABLE")))
                note (Some (seconds 30)) None initial_world _ _
                ltac:(vm_compute; reflexivity))
      as (last & Hlast & _ & Hsame).
    injection Hlast as <-. rewrite Hsame; reflexivity.
Defined.

(** C4, what the code does.  When [wait_for_xds_channel_active] gives up
    and the last attempt failed with [ChannelNotActive], which is what
    [find_active_xds_channel] raises when no channel is active,
    [wait_for_active_xds_channel] raises the [RetryError] as it is: the
    note is added only for a [ChannelNotFound], and [ChannelNotActive] is
    not one. *)
Theorem wait_for_active_xds_channel_adds_no_note
    (self : XdsTestClient) (note_blanket_error : string -> string)
    (xds_server_uri : option string)
    (timeout rpc_deadline : option timedelta) (w w' : World) (e : Error) :
  wait_for_xds_channel_active self xds_server_uri timeout rpc_deadline w
  = (Raised e, w') ->
  exists last,
    e = RetryError last []
    /\ (isinstance_ChannelNotActive last = true ->
        wait_for_active_xds_channel self note_blanket_error xds_server_uri
                                    timeout rpc_deadline w
        = (Raised (RetryError last []), w')).
Proof.
  intros Hrun.
  destruct (waiter_raises_retry_error w _ _ _ e
              (wait_for_xds_channel_active_run self xds_server_uri timeout
                 rpc_deadline w)) as (last & ->).
  { now rewrite Hrun. }
  exists last. split; [reflexivity|].
  unfold wait_for_active_xds_channel, try_except. rewrite Hrun. simpl.
  destruct last; simpl; intros Hactive; try discriminate. reflexivity.
Qed.

(** With a ready channel on which no call was ever started, at every
    attempt: the error carries no note. *)
Lemma wait_for_active_xds_channel_adds_no_note_witness :
  fst (wait_for_active_xds_channel
         (example_client
            (snapshot_channelz [example_channel 2 READY 0 0 []] (fun _ => [])
                               (fun _ => [])))
         example_note
         None (Some (seconds 30)) None initial_world)
  = Raised (RetryError
              (ChannelNotActive
                 "[psm-client-0] Client has no active channel with xds server trafficdirector.googleapis.com:443"
                 "psm-client-0" "trafficdirector.googleapis.com:443")
              []).
Proof.
  destruct (wait_for_active_xds_channel_adds_no_note
              (example_client
                 (snapshot_channelz [example_channel 2 READY 0 0 []]
                                    (fun _ => []) (fun _ => [])))
              example_note
              None (Some (seconds 30)) None initial_world _ _
              ltac:(vm_compute; reflexivity))
    as (last & Hlast & Hsame).
  injection Hlast as <-. rewrite Hsame; reflexivity.
Defined.

(** ** The socket of the active channel *)

Lemma list_of_iter {A : Type} (l : list A) (w : World) :
  list_of (iter l) w = (Returned l, w).
Proof.
  induction l as [|x l IH]; simpl; [reflexivity|].
  unfold bind. now rewrite IH.
Qed.

(** A loop returns only what its body returns, when what follows the loop
    always raises. *)
Lemma for_in_returned {A B : Type} (Q : B -> Prop) (it : Iterable A)
    (body : A -> M (Flow B)) (e : Error) :
  (forall x w b w', body x w = (Returned (Return b), w') -> Q b) ->
  forall w b w', for_in it body (raise e) w = (Returned b, w') -> Q b.
Proof.
  intros Hbody. induction it as [|x rest IH|e']; simpl; intros w b w' Hrun.
  - discriminate Hrun.
  - unfold bind in Hrun. destruct (body x w) as [[[|b0]|e0|] w0] eqn:Hx.
    + now apply IH in Hrun.
    + unfold ret in Hrun. injection Hrun as <- _. now apply Hbody in Hx.
    + discriminate Hrun.
    + discriminate Hrun.
  - discriminate Hrun.
Qed.

(** The channel [find_server_channel_with_state] returns is in the
    expected state. *)
Lemma find_server_channel_with_state_in_state (self : XdsTestClient)
    (expected_state : ChannelState) (rpc_deadline : option timedelta)
    (check_subchannel : bool) (w w' : World) (channel : Channel) :
  find_server_channel_with_state self expected_state rpc_deadline
                                 check_subchannel w
  = (Returned channel, w') ->
  state (data channel) = expected_state.
Proof.
  unfold find_server_channel_with_state, bind at 1, get_server_channels, call.
  apply (for_in_returned (fun c => state (data c) = expected_state)).
  clear w w' channel.
  intros c w b w'. unfold bind at 1, logger_info, emit.
  destruct (state_is (state (data c)) expected_state) eqn:Hstate;
    [|discriminate].
  apply state_is_eq in Hstate. destruct check_subchannel.
  - unfold try_except, bind at 1.
    destruct (find_subchannel_with_state self c expected_state _ _)
      as [[s|e|] w1]; simpl.
    + intros Hrun. injection Hrun as <- _. exact Hstate.
    + destruct (isinstance_NotFound e); discriminate.
    + discriminate.
  - intros Hrun. injection Hrun as <- _. exact Hstate.
Qed.

Lemma warnings_app (l1 l2 : list (Z * Event)) :
  warnings (l1 ++ l2) = warnings l1 ++ warnings l2.
Proof. unfold warnings. now rewrite map_app, filter_app. Qed.

Lemma warnings_scan (kwargs : Kwargs) (evs : list (Z * Event)) :
  Forall (fun te => scan_event kwargs (snd te)) evs -> warnings evs = [].
Proof.
  induction 1 as [|[t e] evs He _ IH]; [reflexivity|].
  unfold warnings in *. simpl in *. rewrite IH.
  destruct e as [[]| |]; simpl in *; tauto.
Qed.

Lemma get_active_server_channel_socket_after_find (self : XdsTestClient)
    (w w1 : World) (channel : Channel) :
  find_server_channel_with_state self READY None true w
  = (Returned channel, w1) ->
  get_active_server_channel_socket self w = socket_of_channel self channel w1.
Proof.
  intros Hfind. unfold get_active_server_channel_socket, bind at 1.
  rewrite Hfind. reflexivity.
Qed.

Lemma socket_of_channel_run (self : XdsTestClient) (channel : Channel)
    (w1 : World) (first_ref : SubchannelRef) (refs : list SubchannelRef)
    (subchannel : Subchannel) (subchannels : list Subchannel)
    (socket : Socket) (sockets : list Socket) :
  subchannel_ref channel = first_ref :: refs ->
  list_channel_subchannels (channelz self) (rpcs w1) channel no_kwargs
  = iter (subchannel :: subchannels) ->
  list_subchannels_sockets (channelz self) (S (rpcs w1)) subchannel no_kwargs
  = iter (socket :: sockets) ->
  exists evs,
    writes (socket_of_channel self channel) w1 (Returned socket) evs
    /\ warnings evs = unexpected_warnings self subchannels sockets.
Proof.
  intros Hrefs Hsubs Hsocks.
  unfold writes, socket_of_channel. rewrite Hrefs.
  unfold bind at 1, first_item, ret at 1.
  unfold bind at 1, logger_debug at 1, emit at 1.
  unfold bind at 1, channelz_list_channel_subchannels, call at 1.
  simpl rpcs. rewrite Hsubs.
  unfold bind at 1. rewrite list_of_iter.
  unfold bind at 1, unpack_first at 1, ret at 1. simpl fst. simpl snd.
  destruct subchannels as [|s2 subchannels'];
    destruct sockets as [|k2 sockets'];
    unfold bind at 1, logger_warning, emit, ret;
    unfold bind at 1, channelz_list_subchannels_sockets, call;
    simpl rpcs; rewrite Hsocks;
    unfold bind at 1; rewrite list_of_iter;
    unfold bind, unpack_first, logger_warning, logger_debug, emit, ret;
    simpl fst; simpl snd;
    (eexists; split; [eexists; split; [reflexivity|]|]);
    try (simpl trace; rewrite <- !app_assoc; reflexivity);
    reflexivity.
Qed.

(** C8. [get_active_server_channel_socket] finds a READY channel to the
    server with [find_server_channel_with_state], takes the first of the
    subchannels listed for it and the first of the sockets listed for that
    subchannel, and returns this socket.  Further subchannels or sockets
    change nothing but the log: one warning for each of the two lists that
    has more than one item. *)
Theorem get_active_server_channel_socket_first
    (self : XdsTestClient) (w w1 : World) (channel : Channel)
    (first_ref : SubchannelRef) (refs : list SubchannelRef)
    (subchannel : Subchannel) (subchannels : list Subchannel)
    (socket : Socket) (sockets : list Socket) :
  find_server_channel_with_state self READY None true w
  = (Returned channel, w1) ->
  subchannel_ref channel = first_ref :: refs ->
  list_channel_subchannels (channelz self) (rpcs w1) channel no_kwargs
  = iter (subchannel :: subchannels) ->
  list_subchannels_sockets (channelz self) (S (rpcs w1)) subchannel no_kwargs
  = iter (socket :: sockets) ->
  let run := get_active_server_channel_socket self w in
  state (data channel) = READY
  /\ fst run = Returned socket
  /\ warnings (events_since w (snd run))
     = unexpected_warnings self subchannels sockets.
Proof.
  intros Hfind Hrefs Hsubs Hsocks run. subst run.
  split; [exact (find_server_channel_with_state_in_state _ _ _ _ _ _ _ Hfind)|].
  rewrite (get_active_server_channel_socket_after_find self w w1 channel Hfind).
  destruct (socket_of_channel_run self channel w1 first_ref refs subchannel
              subchannels socket sockets Hrefs Hsubs Hsocks)
    as (evs2 & (w2 & Hrun & Htr2) & Hwarn).
  rewrite Hrun. simpl. split; [reflexivity|].
  destruct (find_server_channel_with_state_emits self READY None true w)
    as (o & w1' & evs1 & Hrun1 & _ & Htr1 & Hevs1 & _).
  rewrite Hfind in Hrun1. injection Hrun1 as <- <-.
  rewrite (events_since_app w w2 (evs1 ++ evs2)).
  - rewrite warnings_app, (warnings_scan _ _ Hevs1). exact Hwarn.
  - rewrite Htr2, Htr1. now rewrite app_assoc.
Qed.

(** With two subchannels and two sockets listed: the first socket, and
    two warnings. *)
Lemma get_active_server_channel_socket_first_witness :
  let self := example_client
                (snapshot_channelz
                   [example_channel 1 TRANSIENT_FAILURE 0 0 [];
                    example_ready_channel]
                   (fun _ => example_ready_subs) (fun _ => example_sockets)) in
  let run := get_active_server_channel_socket self initial_world in
  state (data example_ready_channel) = READY
  /\ fst run = Returned (example_socket 800)
  /\ warnings (events_since initial_world (snd run))
     = [Log WARNING "[%s] Unexpected subchannels: %r"
            [Str "psm-client-0"; Repr [example_subchannel 81 IDLE []]];
        Log WARNING "[%s] Unexpected sockets: %r"
            [Str "psm-client-0"; Repr [example_subchannel 81 IDLE []]]].
Proof.
  intros self.
  apply (get_active_server_channel_socket_first
           self initial_world _ example_ready_channel
           {| subchannel_id := 80; subchannel_name := "subchannel-80" |}
           [{| subchannel_id := 81; subchannel_name := "subchannel-81" |}]
           (example_subchannel 80 READY []) [example_subchannel 81 IDLE []]
           (example_socket 800) [example_socket 801]
           ltac:(vm_compute; reflexivity)).
  - reflexivity.
  - reflexivity.
  - reflexivity.
Defined.

(** C9. [get_active_server_channel_socket] is partial.  Once the READY
    channel is found: with no subchannel reference in the channel it raises
    [IndexError]; with no subchannel listed for the channel, or no socket
    listed for the first subchannel, it raises [ValueError]; neither is a
    [NotFound].  It returns a socket when the channel has a subchannel
    reference, a subchannel is listed for it and a socket for that
    subchannel. *)
Theorem get_active_server_channel_socket_partial
    (self : XdsTestClient) (w w1 : World) (channel : Channel) :
  find_server_channel_with_state self READY None true w
  = (Returned channel, w1) ->
  let outcome := fst (get_active_server_channel_socket self w) in
  (subchannel_ref channel = [] ->
   outcome = Raised (IndexError "list index out of range"))
  /\ (subchannel_ref channel <> [] ->
      list_channel_subchannels (channelz self) (rpcs w1) channel no_kwargs
      = iter [] ->
      outcome
      = Raised (ValueError
                  "not enough values to unpack (expected at least 1, got 0)"))
  /\ (forall subchannel subchannels,
        subchannel_ref channel <> [] ->
        list_channel_subchannels (channelz self) (rpcs w1) channel no_kwargs
        = iter (subchannel :: subchannels) ->
        list_subchannels_sockets (channelz self) (S (rpcs w1)) subchannel
                                 no_kwargs
        = iter [] ->
        outcome
        = Raised (ValueError
                    "not enough values to unpack (expected at least 1, got 0)"))
  /\ (forall message,
        isinstance_NotFound (IndexError message) = false
        /\ isinstance_NotFound (ValueError message) = false)
  /\ (forall subchannel subchannels socket sockets,
        subchannel_ref channel <> [] ->
        list_channel_subchannels (channelz self) (rpcs w1) channel no_kwargs
        = iter (subchannel :: subchannels) ->
        list_subchannels_sockets (channelz self) (S (rpcs w1)) subchannel
                                 no_kwargs
        = iter (socket :: sockets) ->
        outcome = Returned socket).
Proof.
  intros Hfind outcome. subst outcome.
  rewrite (get_active_server_channel_socket_after_find self w w1 channel Hfind).
  split; [|split; [|split; [|split]]].
  - intros Hrefs. unfold socket_of_channel. rewrite Hrefs. reflexivity.
  - intros Hrefs Hsubs. unfold socket_of_channel.
    destruct (subchannel_ref channel) as [|first_ref refs]; [congruence|].
    unfold bind at 1, first_item, ret at 1.
    unfold bind at 1, logger_debug at 1, emit at 1.
    unfold bind at 1, channelz_list_channel_subchannels, call at 1.
    simpl rpcs. rewrite Hsubs. reflexivity.
  - intros subchannel subchannels Hrefs Hsubs Hsocks. unfold socket_of_channel.
    destruct (subchannel_ref channel) as [|first_ref refs]; [congruence|].
    unfold bind at 1, first_item, ret at 1.
    unfold bind at 1, logger_debug at 1, emit at 1.
    unfold bind at 1, channelz_list_channel_subchannels, call at 1.
    simpl rpcs. rewrite Hsubs.
    unfold bind at 1. rewrite list_of_iter.
    unfold bind at 1, unpack_first at 1, ret at 1. simpl fst. simpl snd.
    destruct subchannels as [|s2 subchannels'];
      unfold bind at 1, logger_warning, emit, ret;
      unfold bind at 1, channelz_list_subchannels_sockets, call;
      simpl rpcs; rewrite Hsocks; reflexivity.
  - intros message. split; reflexivity.
  - intros subchannel subchannels socket sockets Hrefs Hsubs Hsocks.
    destruct (subchannel_ref channel) as [|first_ref refs] eqn:Hfirst;
      [congruence|].
    destruct (socket_of_channel_run self channel w1 first_ref refs subchannel
                subchannels socket sockets Hfirst Hsubs Hsocks)
      as (evs & (w2 & Hrun & _) & _).
    now rewrite Hrun.
Qed.

(** The three failures and the success, each in a world of its own. *)
Lemma get_active_server_channel_socket_partial_witness :
  fst (get_active_server_channel_socket
         (example_client
            (snapshot_channelz example_snapshot example_subs_of (fun _ => [])))
         initial_world)
  = Raised (IndexError "list index out of range")
  /\ fst (get_active_server_channel_socket
            (example_client vanishing_channelz) initial_world)
     = Raised (ValueError
                 "not enough values to unpack (expected at least 1, got 0)")
  /\ fst (get_active_server_channel_socket
            (example_client
               (snapshot_channelz [example_ready_channel]
                                  (fun _ => example_ready_subs) (fun _ => [])))
            initial_world)
     = Raised (ValueError
                 "not enough values to unpack (expected at least 1, got 0)")
  /\ fst (get_active_server_channel_socket
            (example_client
               (snapshot_channelz [example_ready_channel]
                                  (fun _ => example_ready_subs)
                                  (fun _ => example_sockets)))
            initial_world)
     = Returned (example_socket 800).
Proof.
  split; [|split; [|split]].
  - apply (get_active_server_channel_socket_partial
             (example_client
                (snapshot_channelz example_snapshot example_subs_of
                                   (fun _ => [])))
             initial_world _ _ ltac:(vm_compute; reflexivity)).
    reflexivity.
  - apply (get_active_server_channel_socket_partial
             (example_client vanishing_channelz)
             initial_world _ _ ltac:(vm_compute; reflexivity)).
    + discriminate.
    + reflexivity.
  - apply (get_active_server_channel_socket_partial
             (example_client
                (snapshot_channelz [example_ready_channel]
                                   (fun _ => example_ready_subs) (fun _ => [])))
             initial_world _ _ ltac:(vm_compute; reflexivity))
      with (subchannel := example_subchannel 80 READY [])
           (subchannels := [example_subchannel 81 IDLE []]).
    + discriminate.
    + reflexivity.
    + reflexivity.
  - apply (get_active_server_channel_socket_partial
             (example_client
                (snapshot_channelz [example_ready_channel]
                                   (fun _ => example_ready_subs)
                                   (fun _ => example_sockets)))
             initial_world _ _ ltac:(vm_compute; reflexivity))
      with (subchannel := example_subchannel 80 READY [])
           (subchannels := [example_subchannel 81 IDLE []])
           (sockets := [example_socket 801]).
    + discriminate.
    + reflexivity.
    + reflexivity.
Defined.

(** ** The list of the subchannels in a state *)

Lemma for_each_in_state (st : ChannelState) (l acc : list Subchannel)
    (w : World) :
  for_each (iter l)
    (fun subchannel subchannels =>
       if state_is (state (sub_data subchannel)) st
       then ret (subchannels ++ [subchannel])
       else ret subchannels)
    acc w
  = (Returned (acc ++ in_state st l), w).
Proof.
  revert acc. induction l as [|s l IH]; intros acc; simpl.
  - now rewrite app_nil_r.
  - unfold bind at 1. destruct (state_is (state (sub_data s)) st); simpl.
    + rewrite IH, <- app_assoc. reflexivity.
    + apply IH.
Qed.

Lemma in_state_none (st : ChannelState) (l : list Subchannel) :
  Forall (fun s => state (sub_data s) <> st) l -> in_state st l = [].
Proof.
  induction 1 as [|s l Hs _ IH]; [reflexivity|].
  unfold in_state in *. cbn [filter].
  apply state_is_neq in Hs. rewrite Hs. exact IH.
Qed.

Lemma in_state_none_anywhere (st : ChannelState)
    (subs_of : Channel -> list Subchannel) (channels : list Channel) :
  Forall (fun c => Forall (fun s => state (sub_data s) <> st) (subs_of c))
         channels ->
  flat_map (fun c => in_state st (subs_of c)) channels = [].
Proof.
  induction 1 as [|c cs Hc _ IH]; [reflexivity|].
  simpl. rewrite IH, app_nil_r. now apply in_state_none.
Qed.

Lemma channelz_list_channel_subchannels_run (self : XdsTestClient)
    (c : Channel) (kwargs : Kwargs) (w : World) :
  channelz_list_channel_subchannels self c kwargs w
  = (Returned (list_channel_subchannels (channelz self) (rpcs w) c kwargs),
     called (latency (channelz self)) (ListChannelSubchannels c) kwargs w).
Proof. reflexivity. Qed.

Lemma for_each_channels_in_state (self : XdsTestClient) (st : ChannelState)
    (kwargs : Kwargs) (subs_of : Channel -> list Subchannel) :
  (forall n c k,
      list_channel_subchannels (channelz self) n c k = iter (subs_of c)) ->
  forall (channels : list Channel) (acc : list Subchannel) (w : World),
  exists w',
    for_each (iter channels)
      (fun channel subchannels =>
         listed <- channelz_list_channel_subchannels self channel kwargs ;;
         for_each listed
           (fun subchannel subchannels =>
              if state_is (state (sub_data subchannel)) st
              then ret (subchannels ++ [subchannel])
              else ret subchannels)
           subchannels)
      acc w
    = (Returned (acc ++ flat_map (fun c => in_state st (subs_of c)) channels),
       w')
    /\ rpcs w' = (rpcs w + List.length channels)%nat.
Proof.
  intros Hsubs channels.
  induction channels as [|c channels IH]; intros acc w; simpl.
  - exists w. rewrite app_nil_r. split; [reflexivity|lia].
  - unfold bind at 1, bind at 1.
    rewrite channelz_list_channel_subchannels_run, Hsubs, for_each_in_state.
    destruct (IH (acc ++ in_state st (subs_of c))
                 (called (latency (channelz self)) (ListChannelSubchannels c)
                         kwargs w)) as (w' & Hrun & Hrpcs).
    exists w'. rewrite Hrun, <- app_assoc. split; [reflexivity|].
    rewrite Hrpcs. simpl. lia.
Qed.

(** X1. On a snapshot, [find_subchannels_with_state] returns the
    subchannels in the requested state of every channel to the server,
    channel after channel in the order of the snapshot and, for one
    channel, in the order of its listing; it makes one call for the
    channels and one for each channel.  When no subchannel is in the
    state, and when there is no channel at all, it returns the empty list:
    it raises no [NotFound]. *)
Theorem find_subchannels_with_state_all
    (self : XdsTestClient) (st : ChannelState) (kwargs : Kwargs)
    (subs_of : Channel -> list Subchannel) (w : World)
    (channels : list Channel) :
  (forall n c k,
      list_channel_subchannels (channelz self) n c k = iter (subs_of c)) ->
  find_channels_for_target (channelz self) (rpcs w) (server_target self) kwargs
  = iter channels ->
  let run := find_subchannels_with_state self st kwargs w in
  fst run = Returned (flat_map (fun c => in_state st (subs_of c)) channels)
  /\ rpcs (snd run) = (rpcs w + 1 + List.length channels)%nat
  /\ (Forall (fun c => Forall (fun s => state (sub_data s) <> st) (subs_of c))
             channels ->
      fst run = Returned []).
Proof.
  intros Hsubs Hchannels run.
  destruct (for_each_channels_in_state self st kwargs subs_of Hsubs channels []
              (called (latency (channelz self))
                      (FindChannelsForTarget (server_target self)) kwargs w))
    as (w' & Hrun & Hrpcs).
  assert (Hfull : run
                  = (Returned
                       (flat_map (fun c => in_state st (subs_of c)) channels),
                     w')).
  { subst run. unfold find_subchannels_with_state, bind at 1, call.
    rewrite Hchannels. exact Hrun. }
  rewrite Hfull. simpl. split; [reflexivity|split].
  - rewrite Hrpcs. simpl. lia.
  - intros Hnone. now rewrite in_state_none_anywhere.
Qed.

(** On the example snapshot, whose channels 3 and 4 have a ready
    subchannel each. *)
Lemma find_subchannels_with_state_all_witness :
  let self := example_client
                (snapshot_channelz example_snapshot example_subs_of
                                   (fun _ => [])) in
  let run := find_subchannels_with_state self READY no_kwargs initial_world in
  fst run = Returned [example_subchannel 31 READY [];
                      example_subchannel 40 READY []]
  /\ rpcs (snd run) = 5%nat.
Proof.
  intros self.
  destruct (find_subchannels_with_state_all
              self READY no_kwargs example_subs_of initial_world
              example_snapshot) as (Hresult & Hcalls & _).
  - reflexivity.
  - reflexivity.
  - split; [exact Hresult|exact Hcalls].
Defined.

(** What a loop that updates local variables keeps true of them. *)
Lemma for_each_invariant {A S : Type} (I : S -> Prop) (it : Iterable A)
    (body : A -> S -> M S) :
  (forall x s w s' w', I s -> body x s w = (Returned s', w') -> I s') ->
  forall s w s' w',
    I s -> for_each it body s w = (Returned s', w') -> I s'.
Proof.
  intros Hbody. induction it as [|x rest IH|e]; simpl; intros s w s' w' Hs Hrun.
  - unfold ret in Hrun. now injection Hrun as <- _.
  - unfold bind in Hrun. destruct (body x s w) as [[s1|e1|] w1] eqn:Hx;
      try discriminate.
    eapply IH; [|exact Hrun]. eapply Hbody; [exact Hs|exact Hx].
  - discriminate.
Qed.

(** X2. Whatever the channelz client answers, every subchannel that
    [find_subchannels_with_state] returns is in the requested state. *)
Theorem find_subchannels_with_state_only_in_state
    (self : XdsTestClient) (st : ChannelState) (kwargs : Kwargs)
    (w w' : World) (found : list Subchannel) :
  find_subchannels_with_state self st kwargs w = (Returned found, w') ->
  Forall (fun s => state (sub_data s) = st) found.
Proof.
  unfold find_subchannels_with_state, bind at 1, call.
  apply (for_each_invariant (Forall (fun s => state (sub_data s) = st)));
    [|constructor].
  intros c acc w0 acc' w0' Hacc. unfold bind at 1.
  rewrite channelz_list_channel_subchannels_run.
  apply (for_each_invariant (Forall (fun s => state (sub_data s) = st)));
    [|exact Hacc].
  intros s acc1 w1 acc1' w1' Hacc1.
  destruct (state_is (state (sub_data s)) st) eqn:Hstate;
    unfold ret; intros Hrun; injection Hrun as <- _; [|exact Hacc1].
  apply Forall_app. split; [exact Hacc1|].
  constructor; [|constructor]. now apply state_is_eq.
Qed.

(** With a channelz service that loses a subchannel between two calls. *)
Lemma find_subchannels_with_state_only_in_state_witness :
  Forall (fun s => state (sub_data s) = READY)
         [example_subchannel 80 READY []].
Proof.
  apply (find_subchannels_with_state_only_in_state
           (example_client vanishing_channelz) READY no_kwargs
           initial_world _ _ ltac:(vm_compute; reflexivity)).
Defined.

Lemma for_each_in_state_throws (st : ChannelState) (l acc : list Subchannel)
    (e : Error) (w : World) :
  for_each (iter_then l (Throw e))
    (fun subchannel subchannels =>
       if state_is (state (sub_data subchannel)) st
       then ret (subchannels ++ [subchannel])
       else ret subchannels)
    acc w
  = (Raised e, w).
Proof.
  revert acc. induction l as [|s l IH]; intros acc; simpl; [reflexivity|].
  unfold bind at 1. destruct (state_is (state (sub_data s)) st); apply IH.
Qed.

Lemma for_each_channels_then (self : XdsTestClient) (st : ChannelState)
    (kwargs : Kwargs) (listing : Channel -> Iterable Subchannel) :
  (forall n c k, list_channel_subchannels (channelz self) n c k = listing c) ->
  forall (pre : list Channel) (rest : Iterable Channel)
         (acc : list Subchannel) (w : World),
    Forall (fun c => exists l, listing c = iter l) pre ->
    exists acc' w',
      for_each (iter_then pre rest)
        (fun channel subchannels =>
           listed <- channelz_list_channel_subchannels self channel kwargs ;;
           for_each listed
             (fun subchannel subchannels =>
                if state_is (state (sub_data subchannel)) st
                then ret (subchannels ++ [subchannel])
                else ret subchannels)
             subchannels)
        acc w
      = for_each rest
          (fun channel subchannels =>
             listed <- channelz_list_channel_subchannels self channel kwargs ;;
             for_each listed
               (fun subchannel subchannels =>
                  if state_is (state (sub_data subchannel)) st
                  then ret (subchannels ++ [subchannel])
                  else ret subchannels)
               subchannels)
          acc' w'.
Proof.
  intros Hlisting pre rest acc w Hpre. revert acc w.
  induction Hpre as [|c pre [l Hl] _ IH]; intros acc w; simpl.
  - now exists acc, w.
  - unfold bind at 1, bind at 1.
    rewrite channelz_list_channel_subchannels_run, Hlisting, Hl,
      for_each_in_state.
    apply IH.
Qed.

(** X3. [find_subchannels_with_state] catches nothing: an exception of
    the channelz client, thrown by the listing of the channels or by the
    listing of the subchannels of one channel, ends it with that exception,
    be it a [NotFound], and what was collected before is lost. *)
Theorem find_subchannels_with_state_propagates
    (self : XdsTestClient) (st : ChannelState) (kwargs : Kwargs)
    (listing : Channel -> Iterable Subchannel) (w : World)
    (pre : list Channel) (e : Error) :
  (forall n c k, list_channel_subchannels (channelz self) n c k = listing c) ->
  Forall (fun c => exists l, listing c = iter l) pre ->
  (find_channels_for_target (channelz self) (rpcs w) (server_target self)
                            kwargs
   = iter_then pre (Throw e) ->
   fst (find_subchannels_with_state self st kwargs w) = Raised e)
  /\ (forall c rest l,
        find_channels_for_target (channelz self) (rpcs w) (server_target self)
                                 kwargs
        = iter_then pre (Yield c rest) ->
        listing c = iter_then l (Throw e) ->
        fst (find_subchannels_with_state self st kwargs w) = Raised e).
Proof.
  intros Hlisting Hpre. split.
  - intros Hchannels.
    unfold find_subchannels_with_state, bind at 1, call. rewrite Hchannels.
    destruct (for_each_channels_then self st kwargs listing Hlisting pre
                (Throw e) []
                (called (latency (channelz self))
                        (FindChannelsForTarget (server_target self)) kwargs w)
                Hpre) as (acc' & w' & ->).
    reflexivity.
  - intros c rest l Hchannels Hc.
    unfold find_subchannels_with_state, bind at 1, call. rewrite Hchannels.
    destruct (for_each_channels_then self st kwargs listing Hlisting pre
                (Yield c rest) []
                (called (latency (channelz self))
                        (FindChannelsForTarget (server_target self)) kwargs w)
                Hpre) as (acc' & w' & ->).
    simpl. unfold bind at 1, bind at 1.
    rewrite channelz_list_channel_subchannels_run, Hlisting, Hc,
      for_each_in_state_throws.
    reflexivity.
Qed.

(** The second channel cannot be listed: the ready subchannel of the
    first is not returned. *)
Lemma find_subchannels_with_state_propagates_witness :
  fst (find_subchannels_with_state
         (example_client
            (listing_channelz
               (iter [example_channel 4 READY 9 0 [];
                      example_channel 3 READY 4 1 []])
               (example_failing_listing (NotFound "subchannel 31 is gone"))))
         READY no_kwargs initial_world)
  = Raised (NotFound "subchannel 31 is gone").
Proof.
  apply (find_subchannels_with_state_propagates
           (example_client
              (listing_channelz
                 (iter [example_channel 4 READY 9 0 [];
                        example_channel 3 READY 4 1 []])
                 (example_failing_listing (NotFound "subchannel 31 is gone"))))
           READY no_kwargs
           (example_failing_listing (NotFound "subchannel 31 is gone"))
           initial_world
           [example_channel 4 READY 9 0 []]
           (NotFound "subchannel 31 is gone")
           ltac:(intros; reflexivity))
    with (c := example_channel 3 READY 4 1 []) (rest := Stop)
         (l := [example_subchannel 30 IDLE []]).
  - repeat constructor. exists [example_subchannel 40 READY []]. reflexivity.
  - reflexivity.
  - reflexivity.
Defined.

(** ** The scans when the channelz client fails *)

(** A loop whose body returns the first item that passes a test, over an
    iterable that may throw. *)
Lemma for_in_first_hit {A : Type} (p : A -> bool) (it : Iterable A)
    (orelse : M A) (w : World) :
  for_in it (fun x => if p x then ret (Return x) else ret Continue) orelse w
  = match first_hit p it with
    | Found x => (Returned x, w)
    | Thrown e => (Raised e, w)
    | Exhausted => orelse w
    end.
Proof.
  induction it as [|x rest IH|e]; simpl; try reflexivity.
  unfold bind at 1. destruct (p x); simpl; [reflexivity|apply IH].
Qed.

Lemma find_subchannel_with_state_hit (self : XdsTestClient) (channel : Channel)
    (st : ChannelState) (kwargs : Kwargs) (w : World) :
  find_subchannel_with_state self channel st kwargs w
  = (match first_hit (fun s => state_is (state (sub_data s)) st)
                     (list_channel_subchannels (channelz self) (rpcs w)
                                               channel kwargs) with
     | Found s => Returned s
     | Thrown e => Raised e
     | Exhausted => Raised (NotFound (no_subchannel_message self channel st))
     end,
     called (latency (channelz self)) (ListChannelSubchannels channel) kwargs w).
Proof.
  unfold find_subchannel_with_state, bind at 1,
    channelz_list_channel_subchannels, call.
  rewrite for_in_first_hit.
  destruct (first_hit _ _); reflexivity.
Qed.

(** A loop passes over the items its body skips, whatever follows them in
    the iterable. *)
Lemma for_in_continue {A B : Type} (body : A -> M (Flow B))
    (skipped : A -> Prop) :
  (forall x w, skipped x -> exists w', body x w = (Returned Continue, w')) ->
  forall (pre : list A) (rest : Iterable A) (orelse : M B) (w : World),
    Forall skipped pre ->
    exists w',
      for_in (iter_then pre rest) body orelse w = for_in rest body orelse w'.
Proof.
  intros Hbody pre rest orelse w Hpre. revert w.
  induction Hpre as [|x pre Hx _ IH]; intros w; simpl.
  - now exists w.
  - destruct (Hbody x w Hx) as (w1 & Hrun).
    unfold bind at 1. rewrite Hrun. apply IH.
Qed.

Section ServerChannelScanFailing.

Variable self : XdsTestClient.
Variable expected_state : ChannelState.
Variable rpc_deadline : option timedelta.
Variable listing : Channel -> Iterable Subchannel.

Hypothesis listing_subchannels :
  forall n channel kwargs,
    list_channel_subchannels (channelz self) n channel kwargs
    = listing channel.

Lemma server_channel_body_verdict (channel : Channel) (w : World) :
  exists w',
    server_channel_body self expected_state rpc_deadline true channel w
    = (match verdict expected_state listing channel with
       | Passes => Returned (Return channel)
       | Skipped => Returned Continue
       | Aborts e => Raised e
       end, w').
Proof.
  unfold server_channel_body, verdict, bind at 1, logger_info, emit.
  destruct (state_is (state (data channel)) expected_state);
    [|eexists; reflexivity].
  unfold try_except, bind at 1.
  rewrite find_subchannel_with_state_hit, listing_subchannels.
  destruct (first_hit _ (listing channel)) as [s|e|].
  - eexists. reflexivity.
  - destruct (isinstance_NotFound e); eexists; reflexivity.
  - eexists. reflexivity.
Qed.

Lemma find_server_channel_with_state_verdict (w : World)
    (pre : list Channel) (channel : Channel) (rest : Iterable Channel) :
  find_channels_for_target (channelz self) (rpcs w) (server_target self)
                           (rpc_params_of rpc_deadline)
  = iter_then pre (Yield channel rest) ->
  Forall (fun c => verdict expected_state listing c = Skipped) pre ->
  (verdict expected_state listing channel = Passes ->
   fst (find_server_channel_with_state self expected_state rpc_deadline true w)
   = Returned channel)
  /\ (forall e,
        verdict expected_state listing channel = Aborts e ->
        fst (find_server_channel_with_state self expected_state rpc_deadline
                                            true w)
        = Raised e).
Proof.
  intros Hchannels Hpre.
  assert (Hrun : exists w',
             find_server_channel_with_state self expected_state rpc_deadline
                                            true w
             = (match verdict expected_state listing channel with
                | Passes => Returned channel
                | Skipped =>
                    fst (for_in rest
                           (server_channel_body self expected_state
                                                rpc_deadline true)
                           (raise (ChannelNotFound
                                     (no_channel_message self expected_state)
                                     (hostname self) (server_target self)
                                     expected_state))
                           w')
                | Aborts e => Raised e
                end,
                match verdict expected_state listing channel with
                | Skipped =>
                    snd (for_in rest
                           (server_channel_body self expected_state
                                                rpc_deadline true)
                           (raise (ChannelNotFound
                                     (no_channel_message self expected_state)
                                     (hostname self) (server_target self)
                                     expected_state))
                           w')
                | _ => w'
                end)).
  { rewrite find_server_channel_with_state_loop, Hchannels.
    edestruct (for_in_continue
                 (server_channel_body self expected_state rpc_deadline true)
                 (fun c => verdict expected_state listing c = Skipped))
      as (w1 & Hloop); [|exact Hpre|].
    - intros c w0 Hc.
      destruct (server_channel_body_verdict c w0) as (w' & Hbody).
      rewrite Hc in Hbody. now exists w'.
    - rewrite Hloop. simpl for_in. unfold bind at 1.
      destruct (server_channel_body_verdict channel w1) as (w2 & Hbody).
      rewrite Hbody. exists w2.
      destruct (verdict expected_state listing channel);
        [reflexivity| |reflexivity].
      now destruct (for_in rest _ _ w2). }
  destruct Hrun as (w' & Hrun). rewrite Hrun. split.
  - intros ->. reflexivity.
  - intros e ->. reflexivity.
Qed.

End ServerChannelScanFailing.

(** X4. In the scan of [find_server_channel_with_state] with subchannels
    checked, a [NotFound] that the channelz client throws while it lists
    the subchannels of a channel counts as "no subchannel in that state":
    the channel is passed over and the scan goes on.  Any other exception
    thrown there, before a subchannel in that state is listed, ends the
    scan with that exception, even when a later channel qualifies. *)
Theorem find_server_channel_with_state_listing_errors
    (self : XdsTestClient) (expected_state : ChannelState)
    (rpc_deadline : option timedelta)
    (listing : Channel -> Iterable Subchannel) (w : World)
    (pre : list Channel) (channel : Channel) (rest : Iterable Channel) :
  (forall n c kwargs,
      list_channel_subchannels (channelz self) n c kwargs = listing c) ->
  find_channels_for_target (channelz self) (rpcs w) (server_target self)
                           (rpc_params_of rpc_deadline)
  = iter_then pre (Yield channel rest) ->
  Forall (fun c => verdict expected_state listing c = Skipped) pre ->
  (forall e subs,
      state (data channel) = expected_state ->
      listing channel = iter_then subs (Throw e) ->
      Forall (fun s => state (sub_data s) <> expected_state) subs ->
      (isinstance_NotFound e = true ->
       verdict expected_state listing channel = Skipped)
      /\ (isinstance_NotFound e = false ->
          fst (find_server_channel_with_state self expected_state rpc_deadline
                                              true w)
          = Raised e))
  /\ (verdict expected_state listing channel = Passes ->
      fst (find_server_channel_with_state self expected_state rpc_deadline
                                          true w)
      = Returned channel).
Proof.
  intros Hlisting Hchannels Hpre.
  destruct (find_server_channel_with_state_verdict self expected_state
              rpc_deadline listing Hlisting w pre channel rest Hchannels Hpre)
    as [Hpasses Haborts].
  split; [|exact Hpasses].
  intros e subs Hstate Hthrows Hsubs.
  assert (Hhit : first_hit (fun s => state_is (state (sub_data s)) expected_state)
                           (listing channel) = Thrown e).
  { rewrite Hthrows. clear Hthrows.
    induction Hsubs as [|s subs Hs _ IH]; [reflexivity|].
    simpl. apply state_is_neq in Hs. now rewrite Hs. }
  assert (Hverdict : verdict expected_state listing channel
                     = if isinstance_NotFound e then Skipped else Aborts e).
  { unfold verdict. apply state_is_eq in Hstate. now rewrite Hstate, Hhit. }
  split; intros He; rewrite He in Hverdict; [exact Hverdict|].
  now apply Haborts.
Qed.

(** Channel 3 cannot be listed.  When this is a [NotFound], the scan
    goes on and returns channel 4; when it is a transport error, the scan
    ends with it. *)
Lemma find_server_channel_with_state_listing_errors_witness :
  fst (find_server_channel_with_state
         (example_client
            (listing_channelz
               (iter [example_channel 3 READY 4 1 [];
                      example_channel 4 READY 9 0 []])
               (example_failing_listing (NotFound "subchannel 31 is gone"))))
         READY None true initial_world)
  = Returned (example_channel 4 READY 9 0 [])
  /\ fst (find_server_channel_with_state
            (example_client
               (listing_channelz
                  (iter [example_channel 3 READY 4 1 [];
                         example_channel 4 READY 9 0 []])
                  (example_failing_listing (RpcError "UNAVAILABLE"))))
            READY None true initial_world)
     = Raised (RpcError "UNAVAILABLE").
Proof.
  split.
  - apply (find_server_channel_with_state_listing_errors
             (example_client
                (listing_channelz
                   (iter [example_channel 3 READY 4 1 [];
                          example_channel 4 READY 9 0 []])
                   (example_failing_listing (NotFound "subchannel 31 is gone"))))
             READY None
             (example_failing_listing (NotFound "subchannel 31 is gone"))
             initial_world
             [example_channel 3 READY 4 1 []]
             (example_channel 4 READY 9 0 []) Stop
             ltac:(intros; reflexivity) eq_refl).
    + repeat constructor.
    + reflexivity.
  - apply (find_server_channel_with_state_listing_errors
             (example_client
                (listing_channelz
                   (iter [example_channel 3 READY 4 1 [];
                          example_channel 4 READY 9 0 []])
                   (example_failing_listing (RpcError "UNAVAILABLE"))))
             READY None
             (example_failing_listing (RpcError "UNAVAILABLE"))
             initial_world
             []
             (example_channel 3 READY 4 1 [])
             (Yield (example_channel 4 READY 9 0 []) Stop)
             ltac:(intros; reflexivity) eq_refl)
      with (subs := [example_subchannel 30 IDLE []]).
    + constructor.
    + reflexivity.
    + reflexivity.
    + repeat constructor. discriminate.
    + reflexivity.
Defined.

(** ** The channelz calls of the scans *)

Lemma calls_app (l1 l2 : list (Z * Event)) :
  calls (l1 ++ l2) = calls l1 ++ calls l2.
Proof. apply flat_map_app. Qed.

Lemma calls_of_logs (evs : list (Z * Event)) :
  Forall (fun te => log_event (snd te)) evs -> calls evs = [].
Proof.
  induction 1 as [|[t e] evs He _ IH]; [reflexivity|].
  unfold calls in *. simpl in *. rewrite IH.
  destruct e; simpl in *; tauto.
Qed.

(** A function that makes one channelz call and then only writes log
    records has made exactly that call, however it ends. *)
Lemma one_call_then_logs {A B : Type} (lat : nat -> N) (r : Rpc)
    (kwargs : Kwargs) (answer : nat -> Iterable A) (k : Iterable A -> M B)
    (w : World) :
  (forall it, emits log_event (k it)) ->
  calls (events_since w (snd (bind (call lat r kwargs answer) k w)))
  = [(r, kwargs)].
Proof.
  intros Hk. unfold bind, call.
  destruct (Hk (answer (rpcs w)) (called lat r kwargs w))
    as (o & w' & evs & Hrun & _ & Htr & Hevs & _).
  rewrite Hrun. simpl.
  rewrite (events_since_app w w' ((clock w, Call r kwargs) :: evs)).
  - change ((clock w, Call r kwargs) :: evs)
      with ([(clock w, Call r kwargs)] ++ evs).
    rewrite calls_app, (calls_of_logs evs Hevs). reflexivity.
  - rewrite Htr. simpl. rewrite <- app_assoc. reflexivity.
Qed.

(** X5. Whatever the channelz client answers, the channel that
    [find_server_channel_with_state] returns is in the expected state. *)
Theorem find_server_channel_with_state_returns_expected_state
    (self : XdsTestClient) (expected_state : ChannelState)
    (rpc_deadline : option timedelta) (check_subchannel : bool)
    (w w' : World) (channel : Channel) :
  find_server_channel_with_state self expected_state rpc_deadline
                                 check_subchannel w
  = (Returned channel, w') ->
  state (data channel) = expected_state.
Proof.
  intros Hrun.
  exact (find_server_channel_with_state_in_state
           self expected_state rpc_deadline check_subchannel w w' channel Hrun).
Qed.

(** With a channelz service that loses the subchannel after the scan. *)
Lemma find_server_channel_with_state_returns_expected_state_witness :
  state (data example_ready_channel) = READY.
Proof.
  apply (find_server_channel_with_state_returns_expected_state
           (example_client vanishing_channelz) READY None true
           initial_world _ example_ready_channel
           ltac:(vm_compute; reflexivity)).
Defined.

(** X6. With [check_subchannel] false, [find_server_channel_with_state]
    returns the first channel in the expected state whatever the listings
    of subchannels would give, and whatever follows that channel in the
    listing of the channels: it makes one channelz call, the query of the
    channels of the server target, and lists no subchannels. *)
Theorem find_server_channel_with_state_unchecked
    (self : XdsTestClient) (expected_state : ChannelState)
    (rpc_deadline : option timedelta) (w : World)
    (pre : list Channel) (channel : Channel) (rest : Iterable Channel) :
  find_channels_for_target (channelz self) (rpcs w) (server_target self)
                           (rpc_params_of rpc_deadline)
  = iter_then pre (Yield channel rest) ->
  Forall (fun c => state (data c) <> expected_state) pre ->
  state (data channel) = expected_state ->
  let run := find_server_channel_with_state self expected_state rpc_deadline
                                            false w in
  fst run = Returned channel
  /\ calls (events_since w (snd run))
     = [(FindChannelsForTarget (server_target self),
         rpc_params_of rpc_deadline)].
Proof.
  intros Hchannels Hpre Hstate run. subst run. split.
  - rewrite find_server_channel_with_state_loop, Hchannels.
    edestruct (for_in_continue
                 (server_channel_body self expected_state rpc_deadline false)
                 (fun c => state (data c) <> expected_state))
      as (w1 & Hloop); [|exact Hpre|].
    + intros c w0 Hc. apply state_is_neq in Hc.
      unfold server_channel_body, bind, logger_info, emit. rewrite Hc.
      eexists. reflexivity.
    + rewrite Hloop. simpl for_in.
      apply state_is_eq in Hstate.
      unfold bind at 1, server_channel_body, bind at 1, logger_info, emit.
      rewrite Hstate. reflexivity.
  - unfold find_server_channel_with_state, get_server_channels.
    apply one_call_then_logs.
    intros it. apply emits_for_in; [|apply emits_raise].
    intros c. apply emits_bind; [apply emits_logger_info; exact I|].
    intros _. destruct (state_is _ _); apply emits_ret.
Qed.

(** The listing of the channels fails after the second channel, and no
    listing of subchannels works: the second channel is returned all the
    same. *)
Lemma find_server_channel_with_state_unchecked_witness :
  let self := example_client
                (listing_channelz
                   (Yield (example_channel 1 TRANSIENT_FAILURE 0 0 [])
                      (Yield (example_channel 2 READY 0 0 [])
                         (Throw (RpcError "UNAVAILABLE"))))
                   (fun _ => Throw (RpcError "UNAVAILABLE"))) in
  let run := find_server_channel_with_state self READY (Some (seconds 30))
                                            false initial_world in
  fst run = Returned (example_channel 2 READY 0 0 [])
  /\ calls (events_since initial_world (snd run))
     = [(FindChannelsForTarget "server:443",
         rpc_params_of (Some (seconds 30)))].
Proof.
  intros self.
  apply (find_server_channel_with_state_unchecked
           self READY (Some (seconds 30)) initial_world
           [example_channel 1 TRANSIENT_FAILURE 0 0 []]
           (example_channel 2 READY 0 0 [])
           (Throw (RpcError "UNAVAILABLE")) eq_refl).
  - repeat constructor. discriminate.
  - reflexivity.
Defined.

(** X7. Whatever the channelz client answers and however the scan ends,
    [find_active_xds_channel] makes exactly one channelz call: the query
    of the channels of the xDS server URI, with the deadline it was given.
    It never lists subchannels or sockets. *)
Theorem find_active_xds_channel_one_call
    (self : XdsTestClient) (xds_server_uri : string)
    (rpc_deadline : option timedelta) (w : World) :
  calls (events_since w
           (snd (find_active_xds_channel self xds_server_uri rpc_deadline w)))
  = [(FindChannelsForTarget xds_server_uri, rpc_params_of rpc_deadline)].
Proof.
  unfold find_active_xds_channel, get_server_channels.
  apply one_call_then_logs.
  intros it. apply emits_for_in; [|apply emits_raise].
  intros c. apply emits_bind; [apply emits_logger_info; exact I|].
  intros _. apply emits_try_except.
  - apply emits_bind; [apply check_channel_successful_calls_emits|].
    intros c'. apply emits_bind; [apply emits_logger_info; exact I|].
    intros _. apply emits_ret.
  - intros e. apply emits_ret.
Qed.

(** X8. Whatever the channelz client answers, the channel that
    [find_active_xds_channel] returns is READY and has more calls started
    than failed. *)
Theorem find_active_xds_channel_returns_active
    (self : XdsTestClient) (xds_server_uri : string)
    (rpc_deadline : option timedelta) (w w' : World) (channel : Channel) :
  find_active_xds_channel self xds_server_uri rpc_deadline w
  = (Returned channel, w') ->
  state (data channel) = READY
  /\ calls_failed (data channel) < calls_started (data channel).
Proof.
  unfold find_active_xds_channel, bind at 1, get_server_channels, call.
  apply (for_in_returned has_successful_calls). clear w w' channel.
  intros c w b w'. unfold bind at 1, logger_info, emit, try_except, bind at 1.
  destruct (check_channel_successful_calls_run self c
              (rpc_params_of rpc_deadline)
              (record (Log INFO "[%s] xDS control plane channel: %s"
                         [Str (hostname self); ChannelRepr c]) w))
    as [[Hyes Hrun]|[_ Hrun]]; rewrite Hrun; simpl.
  - intros Hret. injection Hret as <- _. exact Hyes.
  - discriminate.
Qed.

(** On the example snapshot of channels to the xDS server. *)
Lemma find_active_xds_channel_returns_active_witness :
  state (data (example_channel 1 READY 5 2 [])) = READY
  /\ calls_failed (data (example_channel 1 READY 5 2 []))
     < calls_started (data (example_channel 1 READY 5 2 [])).
Proof.
  apply (find_active_xds_channel_returns_active
           (example_client
              (snapshot_channelz example_xds_snapshot (fun _ => [])
                                 (fun _ => [])))
           "server:443" None initial_world _ _
           ltac:(vm_compute; reflexivity)).
Defined.

(** X9. [find_active_xds_channel] reads the listing of the channels only
    as far as it needs.  An exception thrown by the listing after channels
    without successful calls ends the scan with that exception, be it a
    [NotFound]: it is not turned into [ChannelNotActive].  A channel with
    successful calls that comes before the failure is returned. *)
Theorem find_active_xds_channel_listing_fails
    (self : XdsTestClient) (xds_server_uri : string)
    (rpc_deadline : option timedelta) (w : World) (pre : list Channel) :
  Forall (fun c => ~ has_successful_calls c) pre ->
  (forall e,
      find_channels_for_target (channelz self) (rpcs w) xds_server_uri
                               (rpc_params_of rpc_deadline)
      = iter_then pre (Throw e) ->
      fst (find_active_xds_channel self xds_server_uri rpc_deadline w)
      = Raised e)
  /\ (forall channel rest,
        find_channels_for_target (channelz self) (rpcs w) xds_server_uri
                                 (rpc_params_of rpc_deadline)
        = iter_then pre (Yield channel rest) ->
        has_successful_calls channel ->
        fst (find_active_xds_channel self xds_server_uri rpc_deadline w)
        = Returned channel).
Proof.
  intros Hpre.
  assert (Hskip : forall rest w0,
             exists w1,
               for_in (iter_then pre rest)
                      (xds_channel_body self xds_server_uri rpc_deadline)
                      (raise (ChannelNotActive
                                (no_active_channel_message self xds_server_uri)
                                (hostname self) xds_server_uri)) w0
               = for_in rest
                        (xds_channel_body self xds_server_uri rpc_deadline)
                        (raise (ChannelNotActive
                                  (no_active_channel_message self
                                                             xds_server_uri)
                                  (hostname self) xds_server_uri)) w1).
  { intros rest w0.
    apply (for_in_continue
             (xds_channel_body self xds_server_uri rpc_deadline)
             (fun c => ~ has_successful_calls c)); [|exact Hpre].
    intros c w1 Hc.
    destruct (xds_channel_body_skips self xds_server_uri rpc_deadline c w1 Hc)
      as (evs & (w2 & Hrun & _) & _).
    now exists w2. }
  split.
  - intros e Hchannels.
    rewrite find_active_xds_channel_loop, Hchannels.
    destruct (Hskip (@Throw Channel e)
                (called (latency (channelz self))
                        (FindChannelsForTarget xds_server_uri)
                        (rpc_params_of rpc_deadline) w)) as (w1 & ->).
    reflexivity.
  - intros channel rest Hchannels Hactive.
    rewrite find_active_xds_channel_loop, Hchannels.
    destruct (Hskip (Yield channel rest)
                (called (latency (channelz self))
                        (FindChannelsForTarget xds_server_uri)
                        (rpc_params_of rpc_deadline) w)) as (w1 & ->).
    simpl for_in. unfold bind at 1.
    destruct (xds_channel_body_returns self xds_server_uri rpc_deadline
                channel w1 Hactive) as (evs & (w2 & Hrun & _) & _).
    now rewrite Hrun.
Qed.

(** The listing fails with a [NotFound] after a channel without successful
    calls; and it fails only after a channel with successful calls. *)
Lemma find_active_xds_channel_listing_fails_witness :
  fst (find_active_xds_channel
         (example_client
            (listing_channelz
               (Yield (example_channel 6 READY 3 3 [])
                      (Throw (NotFound "no such channel")))
               (fun _ => Stop)))
         "xds:443" None initial_world)
  = Raised (NotFound "no such channel")
  /\ fst (find_active_xds_channel
            (example_client
               (listing_channelz
                  (Yield (example_channel 6 READY 3 3 [])
                     (Yield (example_channel 1 READY 5 2 [])
                        (Throw (RpcError "UNAVAILABLE"))))
                  (fun _ => Stop)))
            "xds:443" None initial_world)
     = Returned (example_channel 1 READY 5 2 []).
Proof.
  split.
  - apply (find_active_xds_channel_listing_fails
             (example_client
                (listing_channelz
                   (Yield (example_channel 6 READY 3 3 [])
                          (Throw (NotFound "no such channel")))
                   (fun _ => Stop)))
             "xds:443" None initial_world [example_channel 6 READY 3 3 []]).
    + repeat constructor. apply no_successful_calls. reflexivity.
    + reflexivity.
  - apply (find_active_xds_channel_listing_fails
             (example_client
                (listing_channelz
                   (Yield (example_channel 6 READY 3 3 [])
                      (Yield (example_channel 1 READY 5 2 [])
                         (Throw (RpcError "UNAVAILABLE"))))
                   (fun _ => Stop)))
             "xds:443" None initial_world [example_channel 6 READY 3 3 []])
      with (rest := Throw (RpcError "UNAVAILABLE")).
    + repeat constructor. apply no_successful_calls. reflexivity.
    + reflexivity.
    + split; reflexivity.
Defined.

(** ** The socket lookup: what it raises and what it sends *)

(** X10. On a snapshot in which no channel to the server is READY with a
    READY subchannel, [get_active_server_channel_socket] raises the
    [ChannelNotFound] of [find_server_channel_with_state], with
    [expected_state] READY, and does nothing more: it does not retry, and
    lists no subchannels or sockets after the scan. *)
Theorem get_active_server_channel_socket_no_channel
    (self : XdsTestClient) (subs_of : Channel -> list Subchannel)
    (w : World) (snapshot : list Channel) :
  (forall n c kwargs,
      list_channel_subchannels (channelz self) n c kwargs = iter (subs_of c)) ->
  find_channels_for_target (channelz self) (rpcs w) (server_target self)
                           no_kwargs
  = iter snapshot ->
  Forall (fun c => ~ qualifies READY true subs_of c) snapshot ->
  get_active_server_channel_socket self w
  = (Raised (ChannelNotFound (no_channel_message self READY) (hostname self)
               (server_target self) READY),
     snd (find_server_channel_with_state self READY None true w)).
Proof.
  intros Hsubs Hsnap Hnone.
  destruct (find_server_channel_with_state_not_found
              self READY None true subs_of Hsubs w snapshot Hsnap Hnone)
    as (evs & (w' & Hrun & _) & _).
  unfold get_active_server_channel_socket, bind at 1.
  rewrite Hrun. reflexivity.
Qed.

(** On the snapshot of three channels none of which qualifies. *)
Lemma get_active_server_channel_socket_no_channel_witness :
  fst (get_active_server_channel_socket
         (example_client
            (snapshot_channelz example_stale_snapshot example_subs_of
                               (fun _ => example_sockets)))
         initial_world)
  = Raised (ChannelNotFound
              "[psm-client-0] Client has no READY channel with server server:443"
              "psm-client-0" "server:443" READY).
Proof.
  rewrite (get_active_server_channel_socket_no_channel
             (example_client
                (snapshot_channelz example_stale_snapshot example_subs_of
                                   (fun _ => example_sockets)))
             example_subs_of initial_world example_stale_snapshot).
  - reflexivity.
  - reflexivity.
  - reflexivity.
  - repeat constructor; apply not_qualifies; reflexivity.
Defined.

Lemma emits_weaken {A : Type} (P Q : Event -> Prop) (m : M A) :
  (forall e, P e -> Q e) -> emits P m -> emits Q m.
Proof.
  intros HPQ Hm w.
  destruct (Hm w) as (o & w' & evs & Hrun & Ho & Htr & Hevs & Hclock).
  exists o, w', evs. repeat split; try assumption.
  eapply Forall_impl; [|exact Hevs]. intros te. apply HPQ.
Qed.

Lemma emits_list (P : Event -> Prop) {A : Type} (it : Iterable A) :
  emits P (list_of it).
Proof.
  induction it as [|x rest IH|e]; simpl.
  - apply emits_ret.
  - apply emits_bind; [exact IH|]. intros l. apply emits_ret.
  - apply emits_raise.
Qed.

Lemma socket_of_channel_emits (self : XdsTestClient) (channel : Channel) :
  emits no_deadline_event (socket_of_channel self channel).
Proof.
  unfold socket_of_channel.
  apply emits_bind.
  { unfold first_item. destruct (subchannel_ref channel);
      [apply emits_raise|apply emits_ret]. }
  intros first_ref. apply emits_bind; [apply emits_emit; exact I|].
  intros _. apply emits_bind; [apply emits_call; reflexivity|].
  intros listed. apply emits_bind; [apply emits_list|].
  intros subs. apply emits_bind.
  { unfold unpack_first. destruct subs; [apply emits_raise|apply emits_ret]. }
  intros [subchannel subchannels]. simpl fst. simpl snd. apply emits_bind.
  { destruct subchannels; [apply emits_ret|apply emits_emit; exact I]. }
  intros _. apply emits_bind; [apply emits_call; reflexivity|].
  intros listed'. apply emits_bind; [apply emits_list|].
  intros socks. apply emits_bind.
  { unfold unpack_first. destruct socks; [apply emits_raise|apply emits_ret]. }
  intros [socket sockets]. simpl fst. simpl snd. apply emits_bind.
  { destruct sockets; [apply emits_ret|apply emits_emit; exact I]. }
  intros _. apply emits_bind; [apply emits_emit; exact I|].
  intros _. apply emits_ret.
Qed.

(** X11. Whatever the channelz client answers,
    [get_active_server_channel_socket] gives none of its channelz calls a
    deadline: the scan for the channel, the listing of its subchannels and
    the listing of the sockets all go out with no [deadline_sec].  It never
    sleeps. *)
Theorem get_active_server_channel_socket_no_deadline
    (self : XdsTestClient) (w : World) :
  Forall (fun te => no_deadline_event (snd te))
         (events_since w (snd (get_active_server_channel_socket self w))).
Proof.
  assert (Hemits : emits no_deadline_event
                         (get_active_server_channel_socket self)).
  { unfold get_active_server_channel_socket.
    change (emits no_deadline_event
              (channel <- find_server_channel_with_state self READY None true ;;
               socket_of_channel self channel)).
    apply emits_bind; [|apply socket_of_channel_emits].
    apply (emits_weaken (scan_event (rpc_params_of None)));
      [|apply find_server_channel_with_state_emits].
    intros [[]| |]; simpl; try tauto. intros ->. reflexivity. }
  destruct (Hemits w) as (o & w' & evs & Hrun & Ho & Htr & Hevs & _).
  rewrite Hrun. simpl. rewrite (events_since_app _ _ _ Htr). exact Hevs.
Qed.

(** ** The target of the wait for the xDS channel *)



(** ** Which failure a waiter gives up with *)

(** A retryer raises only a [RetryError] without notes, around an
    exception that its probe raised. *)
Lemma retry_loop_raised {A : Type} (r : Retrying) (start : Z) (probe : M A)
    (fuel : nat) :
  forall (attempt : nat) (w w' : World) (e : Error),
    retry_loop fuel r start attempt probe w = (Raised e, w') ->
    exists last w1 w2,
      e = RetryError last [] /\ probe w1 = (Raised last, w2).
Proof.
  induction fuel as [|fuel IH]; intros attempt w w' e; cbn [retry_loop].
  - discriminate.
  - unfold try_except. destruct (probe w) as [[a|e1|] w1] eqn:Hprobe;
      try discriminate.
    unfold bind at 1, now.
    destruct (microseconds (timeout r) <=? clock w1 - start).
    + unfold raise. intros Hrun. injection Hrun as <- _.
      exists e1, w, w1. now split.
    + unfold bind at 1, sleep. apply IH.
Qed.

Lemma logged_retry_raised {A : Type} (r : Retrying) (probe : M A)
    (before : Event) (after : A -> Event) (w w' : World) (e : Error) :
  (emit before ;; a <- retryer_call r probe ;; emit (after a) ;; ret a) w
  = (Raised e, w') ->
  exists last w1 w2,
    e = RetryError last [] /\ probe w1 = (Raised last, w2).
Proof.
  unfold bind at 1, emit at 1, bind at 1.
  destruct (retryer_call r probe (record before w)) as [[a|e1|] w1] eqn:Hcall;
    try discriminate.
  intros Hrun. injection Hrun as <- _.
  unfold retryer_call, bind, now in Hcall.
  exact (retry_loop_raised r _ probe _ _ _ _ _ Hcall).
Qed.

(** What a loop raises: what its iterable throws, what its body raises, or
    what follows the loop raises. *)
Lemma for_in_raised {A B : Type} (ok : Error -> bool) (it : Iterable A)
    (body : A -> M (Flow B)) (e0 : Error) :
  throws_only ok it ->
  (forall x w e w', body x w = (Raised e, w') -> ok e = true) ->
  ok e0 = true ->
  forall w e w', for_in it body (raise e0) w = (Raised e, w') -> ok e = true.
Proof.
  intros Hit Hbody He0.
  induction it as [|x rest IH|e1]; simpl in *; intros w e w' Hrun.
  - unfold raise in Hrun. now injection Hrun as <- _.
  - unfold bind in Hrun. destruct (body x w) as [[[|b]|e2|] w2] eqn:Hx.
    + now apply (IH Hit) in Hrun.
    + discriminate.
    + injection Hrun as <- _. now apply Hbody in Hx.
    + discriminate.
  - unfold raise in Hrun. now injection Hrun as <- _.
Qed.

Lemma throws_only_iter {A : Type} (ok : Error -> bool) (l : list A) :
  throws_only ok (iter l).
Proof. induction l; simpl; auto. Qed.

Lemma find_active_xds_channel_raised (self : XdsTestClient)
    (xds_server_uri : string) (rpc_deadline : option timedelta)
    (ok : Error -> bool) (w w' : World) (e : Error) :
  (forall n target kwargs,
      throws_only ok (find_channels_for_target (channelz self) n target kwargs)) ->
  (forall message, ok (ChannelNotActive message (hostname self) xds_server_uri)
                   = true) ->
  find_active_xds_channel self xds_server_uri rpc_deadline w = (Raised e, w') ->
  ok e = true.
Proof.
  intros Hthrows Hok.
  unfold find_active_xds_channel, bind at 1, get_server_channels, call.
  apply (for_in_raised ok); [apply Hthrows| |apply Hok].
  intros c w0 e0 w0'.
  unfold bind at 1, logger_info, emit, try_except, bind at 1.
  destruct (check_channel_successful_calls_run self c
              (rpc_params_of rpc_deadline)
              (record (Log INFO "[%s] xDS control plane channel: %s"
                         [Str (hostname self); ChannelRepr c]) w0))
    as [[_ Hrun]|[_ Hrun]]; rewrite Hrun; simpl; discriminate.
Qed.

(** X13. The note of [wait_for_active_xds_channel] is never added unless
    the channelz client itself throws a [ChannelNotFound]: for a client
    whose query of the channels throws no [ChannelNotFound],
    [wait_for_active_xds_channel] does exactly what
    [wait_for_xds_channel_active] does, for every argument and in every
    world. *)
Theorem wait_for_active_xds_channel_note_unreachable
    (self : XdsTestClient) (note_blanket_error : string -> string)
    (xds_server_uri : option string)
    (timeout rpc_deadline : option timedelta) (w : World) :
  (forall n target kwargs,
      throws_only not_ChannelNotFound
        (find_channels_for_target (channelz self) n target kwargs)) ->
  wait_for_active_xds_channel self note_blanket_error xds_server_uri timeout
                              rpc_deadline w
  = wait_for_xds_channel_active self xds_server_uri timeout rpc_deadline w.
Proof.
  intros Hthrows.
  unfold wait_for_active_xds_channel, try_except.
  destruct (wait_for_xds_channel_active self xds_server_uri timeout
              rpc_deadline w) as [[c|e|] w'] eqn:Hrun; try reflexivity.
  unfold wait_for_xds_channel_active, logger_info in Hrun.
  apply logged_retry_raised in Hrun as (last & w1 & w2 & -> & Hprobe).
  apply (find_active_xds_channel_raised _ _ _ not_ChannelNotFound) in Hprobe;
    [|exact Hthrows|reflexivity].
  unfold not_ChannelNotFound in Hprobe. apply negb_true_iff in Hprobe.
  simpl. now rewrite Hprobe.
Qed.

(** With a channelz client that answers from lists, and one whose every
    query fails with a transport error. *)
Lemma wait_for_active_xds_channel_note_unreachable_witness :
  wait_for_active_xds_channel
    (example_client
       (snapshot_channelz [example_channel 2 READY 0 0 []] (fun _ => [])
                          (fun _ => [])))
    example_note None (Some (seconds 30)) None initial_world
  = wait_for_xds_channel_active
      (example_client
         (snapshot_channelz [example_channel 2 READY 0 0 []] (fun _ => [])
                            (fun _ => [])))
      None (Some (seconds 30)) None initial_world
  /\ wait_for_active_xds_channel
       (example_client (failing_channelz (RpcError "UNAVAILABLE")))
       example_note None (Some (seconds 30)) None initial_world
     = wait_for_xds_channel_active
         (example_client (failing_channelz (RpcError "UNAVAILABLE")))
         None (Some (seconds 30)) None initial_world.
Proof.
  split.
  - apply (wait_for_active_xds_channel_note_unreachable
             (example_client
                (snapshot_channelz [example_channel 2 READY 0 0 []]
                                   (fun _ => []) (fun _ => [])))
             example_note None (Some (seconds 30)) None initial_world).
    intros n target kwargs. exact I.
  - apply (wait_for_active_xds_channel_note_unreachable
             (example_client (failing_channelz (RpcError "UNAVAILABLE")))
             example_note None (Some (seconds 30)) None initial_world).
    intros n target kwargs. reflexivity.
Defined.

Lemma first_hit_never_thrown {A : Type} (p : A -> bool) (it : Iterable A)
    (e : Error) :
  throws_only (fun _ => false) it -> first_hit p it <> Thrown e.
Proof.
  induction it as [|x rest IH|e1]; simpl; intros Hit.
  - discriminate.
  - destruct (p x); [discriminate|now apply IH].
  - discriminate.
Qed.

Lemma find_server_channel_with_state_raised (self : XdsTestClient)
    (expected_state : ChannelState) (rpc_deadline : option timedelta)
    (w w' : World) (e : Error) :
  (forall n target kwargs,
      throws_only (fun _ => false)
        (find_channels_for_target (channelz self) n target kwargs)) ->
  (forall n c kwargs,
      throws_only (fun _ => false)
        (list_channel_subchannels (channelz self) n c kwargs)) ->
  find_server_channel_with_state self expected_state rpc_deadline true w
  = (Raised e, w') ->
  isinstance_ChannelNotFound e = true.
Proof.
  intros Hchannels Hsubs.
  unfold find_server_channel_with_state, bind at 1, get_server_channels, call.
  apply (for_in_raised isinstance_ChannelNotFound); [|clear w w' e|reflexivity].
  - specialize (Hchannels (rpcs w) (server_target self)
                          (rpc_params_of rpc_deadline)).
    revert Hchannels. generalize (find_channels_for_target (channelz self)
                                    (rpcs w) (server_target self)
                                    (rpc_params_of rpc_deadline)).
    induction i as [|x rest IH|e1]; simpl; auto. discriminate.
  - intros c w e w'. unfold bind at 1, logger_info, emit.
    destruct (state_is (state (data c)) expected_state); [|discriminate].
    unfold try_except, bind at 1.
    rewrite find_subchannel_with_state_hit.
    pose proof (first_hit_never_thrown
                  (fun s => state_is (state (sub_data s)) expected_state)
                  _ e
                  (Hsubs (rpcs (record (Log INFO "[%s] Server channel: %s"
                                          [Str (hostname self); ChannelRepr c])
                                       w))
                         c (rpc_params_of rpc_deadline))) as Hhit.
    destruct (first_hit _ _) as [s|e1|] eqn:Hfirst; simpl; try discriminate.
    exfalso.
    exact (first_hit_never_thrown _ _ e1
             (Hsubs _ c (rpc_params_of rpc_deadline)) Hfirst).
Qed.

(** X14. For a channelz client that throws nothing,
    [wait_for_server_channel_ready] fails in one way only: with a
    [RetryError] around a [ChannelNotFound], carrying the note made from
    "The client couldn't connect to the server.". *)
Theorem wait_for_server_channel_ready_always_notes
    (self : XdsTestClient) (note_blanket_error : string -> string)
    (timeout rpc_deadline : option timedelta) (w w' : World) (e : Error) :
  (forall n target kwargs,
      throws_only (fun _ => false)
        (find_channels_for_target (channelz self) n target kwargs)) ->
  (forall n c kwargs,
      throws_only (fun _ => false)
        (list_channel_subchannels (channelz self) n c kwargs)) ->
  wait_for_server_channel_ready self note_blanket_error timeout rpc_deadline w
  = (Raised e, w') ->
  exists last,
    isinstance_ChannelNotFound last = true
    /\ e = RetryError last
             [note_blanket_error "The client couldn't connect to the server."].
Proof.
  intros Hchannels Hsubs.
  unfold wait_for_server_channel_ready, try_except.
  destruct (wait_for_server_channel_state self READY timeout rpc_deadline w)
    as [[c|e1|] w1] eqn:Hrun; try discriminate.
  unfold wait_for_server_channel_state, logger_info in Hrun.
  apply logged_retry_raised in Hrun as (last & w2 & w3 & -> & Hprobe).
  apply find_server_channel_with_state_raised in Hprobe;
    [|exact Hchannels|exact Hsubs].
  simpl. rewrite Hprobe. unfold raise. intros Hraised.
  injection Hraised as <- _. exists last. now split.
Qed.

(** On the snapshot of three channels none of which qualifies. *)
Lemma wait_for_server_channel_ready_always_notes_witness :
  exists last,
    isinstance_ChannelNotFound last = true
    /\ RetryError
         (ChannelNotFound
            "[psm-client-0] Client has no READY channel with server server:443"
            "psm-client-0" "server:443" READY)
         ["Reason: The client couldn't connect to the server."]
       = RetryError last
           [example_note "The client couldn't connect to the server."].
Proof.
  eapply (wait_for_server_channel_ready_always_notes
            (example_client
               (snapshot_channelz example_stale_snapshot example_subs_of
                                  (fun _ => [])))
            example_note (Some (seconds 30)) None initial_world).
  - intros n target kwargs. exact I.
  - intros n c kwargs. apply throws_only_iter.
  - vm_compute. reflexivity.
Defined.

(** ** The subchannel scan when the listing fails *)

Lemma first_hit_then {A : Type} (p : A -> bool) (pre : list A)
    (rest : Iterable A) :
  Forall (fun x => p x = false) pre ->
  first_hit p (iter_then pre rest) = first_hit p rest.
Proof.
  induction 1 as [|x pre Hx _ IH]; simpl; [reflexivity|].
  now rewrite Hx.
Qed.

(** X15. [find_subchannel_with_state] reads the listing of the
    subchannels only up to the first one in the target state: that one is
    returned even if the listing would fail afterwards.  An exception the
    listing throws before any such subchannel ends the call with that
    exception, and is not turned into the [NotFound] of the function. *)
Theorem find_subchannel_with_state_listing_fails
    (self : XdsTestClient) (channel : Channel) (st : ChannelState)
    (kwargs : Kwargs) (w : World) (pre : list Subchannel) :
  Forall (fun s => state (sub_data s) <> st) pre ->
  (forall s rest,
      list_channel_subchannels (channelz self) (rpcs w) channel kwargs
      = iter_then pre (Yield s rest) ->
      state (sub_data s) = st ->
      fst (find_subchannel_with_state self channel st kwargs w) = Returned s)
  /\ (forall e,
        list_channel_subchannels (channelz self) (rpcs w) channel kwargs
        = iter_then pre (Throw e) ->
        fst (find_subchannel_with_state self channel st kwargs w) = Raised e).
Proof.
  intros Hpre.
  assert (Hpre' : Forall (fun s => state_is (state (sub_data s)) st = false) pre).
  { eapply Forall_impl; [|exact Hpre]. intros s. apply state_is_neq. }
  split.
  - intros s rest Hlisting Hs.
    rewrite find_subchannel_with_state_hit, Hlisting, first_hit_then
      by exact Hpre'.
    simpl. apply state_is_eq in Hs. now rewrite Hs.
  - intros e Hlisting.
    rewrite find_subchannel_with_state_hit, Hlisting, first_hit_then
      by exact Hpre'.
    reflexivity.
Qed.

(** The listing fails after an idle subchannel; and it fails only after
    a ready one. *)
Lemma find_subchannel_with_state_listing_fails_witness :
  fst (find_subchannel_with_state
         (example_client
            (listing_channelz Stop
               (example_failing_listing (RpcError "UNAVAILABLE"))))
         (example_channel 3 READY 4 1 []) READY no_kwargs initial_world)
  = Raised (RpcError "UNAVAILABLE")
  /\ fst (find_subchannel_with_state
            (example_client
               (listing_channelz Stop
                  (fun _ => Yield (example_subchannel 31 READY [])
                                  (Throw (RpcError "UNAVAILABLE")))))
            (example_channel 3 READY 4 1 []) READY no_kwargs initial_world)
     = Returned (example_subchannel 31 READY []).
Proof.
  split.
  - apply (find_subchannel_with_state_listing_fails
             (example_client
                (listing_channelz Stop
                   (example_failing_listing (RpcError "UNAVAILABLE"))))
             (example_channel 3 READY 4 1 []) READY no_kwargs initial_world
             [example_subchannel 30 IDLE []]).
    + repeat constructor. discriminate.
    + reflexivity.
  - apply (find_subchannel_with_state_listing_fails
             (example_client
                (listing_channelz Stop
                   (fun _ => Yield (example_subchannel 31 READY [])
                                   (Throw (RpcError "UNAVAILABLE")))))
             (example_channel 3 READY 4 1 []) READY no_kwargs initial_world
             [])
      with (rest := Throw (RpcError "UNAVAILABLE")).
    + constructor.
    + reflexivity.
    + reflexivity.
Defined.

(** ** The list of subchannels and the scan for a channel *)

Lemma in_state_empty (st : ChannelState) (l : list Subchannel) :
  in_state st l = [] ->
  ~ Exists (fun s => state (sub_data s) = st) l.
Proof.
  intros Hempty Hex. apply Exists_exists in Hex as (s & Hin & Hs).
  assert (Hfiltered : In s (in_state st l)).
  { unfold in_state. apply filter_In. split; [exact Hin|].
    now apply state_is_eq. }
  rewrite Hempty in Hfiltered. contradiction.
Qed.

Lemma flat_map_empty {A B : Type} (f : A -> list B) (l : list A) :
  flat_map f l = [] -> Forall (fun x => f x = []) l.
Proof.
  induction l as [|x l IH]; simpl; intros Hempty; [constructor|].
  apply app_eq_nil in Hempty as [Hx Hl]. constructor; [exact Hx|now apply IH].
Qed.

(** X16. On a snapshot for which [find_subchannels_with_state] returns
    the empty list, no channel can qualify with its subchannels checked:
    [find_server_channel_with_state] for the same state raises
    [ChannelNotFound], whatever the states of the channels. *)
Theorem no_subchannel_no_channel
    (self : XdsTestClient) (st : ChannelState)
    (rpc_deadline : option timedelta)
    (subs_of : Channel -> list Subchannel) (channels : list Channel)
    (w w0 : World) :
  (forall n c kwargs,
      list_channel_subchannels (channelz self) n c kwargs = iter (subs_of c)) ->
  (forall n, find_channels_for_target (channelz self) n (server_target self)
                                      (rpc_params_of rpc_deadline)
             = iter channels) ->
  fst (find_subchannels_with_state self st (rpc_params_of rpc_deadline) w0)
  = Returned [] ->
  fst (find_server_channel_with_state self st rpc_deadline true w)
  = Raised (ChannelNotFound (no_channel_message self st) (hostname self)
              (server_target self) st).
Proof.
  intros Hsubs Hchannels Hempty.
  destruct (for_each_channels_in_state self st (rpc_params_of rpc_deadline)
              subs_of Hsubs channels []
              (called (latency (channelz self))
                      (FindChannelsForTarget (server_target self))
                      (rpc_params_of rpc_deadline) w0))
    as (w1 & Hrun & _).
  unfold find_subchannels_with_state, bind at 1, call in Hempty.
  rewrite Hchannels, Hrun in Hempty. simpl in Hempty.
  injection Hempty as Hempty. apply flat_map_empty in Hempty.
  destruct (find_server_channel_with_state_not_found
              self st rpc_deadline true subs_of Hsubs w channels
              (Hchannels (rpcs w)))
    as (evs & (w' & Hfind & _) & _).
  - eapply Forall_impl; [|exact Hempty].
    intros c Hc [_ Hsub]. exact (in_state_empty st _ Hc (Hsub eq_refl)).
  - now rewrite Hfind.
Qed.

(** On the snapshot of three channels, one of them ready, none with a
    ready subchannel. *)
Lemma no_subchannel_no_channel_witness :
  fst (find_server_channel_with_state
         (example_client
            (snapshot_channelz example_stale_snapshot example_subs_of
                               (fun _ => [])))
         READY None true initial_world)
  = Raised (ChannelNotFound
              "[psm-client-0] Client has no READY channel with server server:443"
              "psm-client-0" "server:443" READY).
Proof.
  apply (no_subchannel_no_channel
           (example_client
              (snapshot_channelz example_stale_snapshot example_subs_of
                                 (fun _ => [])))
           READY None example_subs_of example_stale_snapshot
           initial_world initial_world).
  - reflexivity.
  - reflexivity.
  - reflexivity.
Defined.

(** ** Construction *)

